(** * examples/timit.py: the TIMIT training script

    A shallow embedding of [main] of [examples/timit.py].  The script is a
    straight line of calls into libraries that are not part of the file
    (neko, timit_tools, numpy, pickle, time, io).  Every such call is an
    event of a small free monad; an arbitrary environment answers each event
    with a value or with an exception, and [run] records the calls made and
    the answers received.  Dictionaries are stdpp [gmap]s keyed by strings.

    Strings are sequences of 8-bit characters and [lower] folds the ASCII
    letters only.  The dispatch tables have ASCII keys without the letter
    [k], and the only non-ASCII code point whose Python lowercasing is an
    ASCII letter is U+212A (to [k]), so membership of a lowercased option in
    a table is the same under Python's Unicode-aware [str.lower].  The
    spelling of a lowercased option, as in the key of a [KeyError], is
    Python's for the options that are ASCII ([is_ascii]). *)

From Stdlib Require Import ZArith List Ascii String.
From Stdlib Require Import SpecFloat.
From stdpp Require Import base option list strings pretty gmap fin_maps.

Local Open Scope Z_scope.
Local Open Scope string_scope.

(** ** Python values that the script itself handles *)

(** A Python [float] is an IEEE-754 binary64 datum. *)
Definition float := spec_float.

(** Exceptions.  [KeyError] is what a dict subscript raises on a missing
    key; [OverflowError] and [ValueError] are what [int] raises on an
    infinity and on a NaN; [Exception] stands for anything else that a
    library call may raise. *)
Inductive pyexn :=
| KeyError (key : string)
| OverflowError
| ValueError
| Exception (cls msg : string).

(** The outcome of evaluating an expression: an exception or a value. *)
Definition res (A : Type) : Type := pyexn + A.

(** [str.lower] on the ASCII range. *)
Definition lower_ascii (c : ascii) : ascii :=
  let n := N_of_ascii c in
  if ((65 <=? n) && (n <=? 90))%N then ascii_of_N (n + 32) else c.

Fixpoint lower (s : string) : string :=
  match s with
  | EmptyString => EmptyString
  | String c s' => String (lower_ascii c) (lower s')
  end.

(** [s.isascii()]: every character is below 128.  On such strings [lower]
    is Python's [str.lower] character for character. *)
Fixpoint is_ascii (s : string) : bool :=
  match s with
  | EmptyString => true
  | String c s' => (N_of_ascii c <? 128)%N && is_ascii s'
  end.

(** [int(x)] for a float [x]: truncation towards zero. *)
Definition int_ (x : float) : res Z :=
  match x with
  | S754_zero _ => inr 0
  | S754_infinity _ => inl OverflowError
  | S754_nan => inl ValueError
  | S754_finite s m e =>
      let mag := Z.shiftl (Z.pos m) e in
      inr (if s then - mag else mag)
  end.

(** The classes and modules that the script imports and puts in its
    dispatch tables. *)
Inductive layer_cls := BasicRNNModel | LIFRNNModel | ALIFRNNModel.
Inductive rule_cls := Backprop | Eprop.
Inductive backend_mod := pytb | tfb.
Inductive dtype := np_float32.

(** The namespace returned by [parser.parse_args()]: one attribute per
    [add_argument], with the type that argparse gives it. *)
Record Namespace := {
  seed : option Z;
  backend : string;
  epoch : Z;
  batch_size : Z;
  learning_rule : string;
  layer : string;
  hidden : Z;
  firing_thresh : float;
  learning_rate : float;
  eprop_mode : string;
  reg : bool;
  reg_coeff : float;
  reg_target : Z
}.

(** The defaults of the thirteen [add_argument] calls (an empty command
    line).  The floats are the binary64 values of 1.0, 0.001 and 0.00005. *)
Definition default_args : Namespace := {|
  seed := None;
  backend := "pytorch";
  epoch := 30;
  batch_size := 32;
  learning_rule := "eprop";
  layer := "ALIF";
  hidden := 200;
  firing_thresh := S754_finite false 1 0;
  learning_rate := S754_finite false 1152921504606847 (-60);
  eprop_mode := "adaptive";
  reg := false;
  reg_coeff := S754_finite false 7378697629483821 (-67);
  reg_target := 10
|}.

(** ** The dispatch tables (lines 36-38) *)

Definition _layers : gmap string layer_cls :=
  <["alif" := ALIFRNNModel]> (<["lif" := LIFRNNModel]> (<["rnn" := BasicRNNModel]> ∅)).

Definition _learning_rules : gmap string rule_cls :=
  <["eprop" := Eprop]> (<["bptt" := Backprop]> ∅).

Definition _backends : gmap string backend_mod :=
  <["tensorflow" := tfb]> (<["tf" := tfb]> (<["pyt" := pytb]>
    (<["pytorch" := pytb]> (<["torch" := pytb]> ∅)))).

(** ** The libraries, as the script sees them *)

(** The objects of the libraries are opaque to the script, which only
    passes them on.  [tensor_add a b] is the backend's [a + b] on loss
    values and [tensor_rmul c a] its [c * a] for a float [c] on the left. *)
Class Library := {
  Dataset : Type;
  Array : Type;
  Tensor : Type;
  Model : Type;
  EvaluatorT : Type;
  Optimizer : Type;
  Rule : Type;
  TrainerT : Type;
  Log : Type;
  Metrics : Type;
  File : Type;
  tensor_add : Tensor -> Tensor -> Tensor;
  tensor_rmul : float -> Tensor -> Tensor
}.

Section Script.

Context {L : Library}.

(** Values stored in the namespace and in the result record. *)
Inductive pyval :=
| VNone
| VBool (b : bool)
| VInt (z : Z)
| VFloat (x : float)
| VStr (s : string)
| VLog (l : Log)
| VMetrics (m : Metrics).

Definition of_seed (o : option Z) : pyval :=
  match o with Some z => VInt z | None => VNone end.

(** A loss callable, as returned by [get_loss] or defined by the script:
    called with keywords [model], [x] and [y_true]. *)
Definition LossFn : Type := Model -> Array -> Array -> Tensor.

(** The [loss=] argument of [Evaluator]: a loss name or a callable. *)
Inductive loss_arg :=
| LossName (name : string)
| LossCallable (f : LossFn).

(** *** Calls into the libraries, indexed by the type of their result *)
Inductive call : Type -> Type :=
| TimitDataset_new (batch : Z) (data_path preproc : string)
    (use_reduced_phonem_set : bool) : call Dataset
| get_train_batch (d : Dataset) : call (Array * Array * Array * Array)
| get_test_batch (d : Dataset) : call (Array * Array * Array * Array)
| n_phns (d : Dataset) : call Z
| astype (a : Array) (t : dtype) : call Array
| categorical_to_onehot (n : backend_mod) (y : Array) (num_classes : Z) : call Array
| get_loss (name : string) (n : backend_mod) (kwargs : list (string * pyval)) : call LossFn
| layer_new (cls : layer_cls) (hidden_size output_size : Z) (n : backend_mod)
    (task_type : string) (return_sequence : bool) (v_th : float)
    (seed_ : option Z) : call Model
| Evaluator_new (model : Model) (loss : loss_arg) (metrics : list string) : call EvaluatorT
| Adam_new (learning_rate_ : float) : call Optimizer
| learning_rule_new (cls : rule_cls) (evaluated_model : EvaluatorT)
    (optimizer : Optimizer) (mode : string) (firing_rate_regularization : bool)
    (c_reg : float) (f_target : Z) : call Rule
| Trainer_new (algo : Rule) : call TrainerT
| Trainer_train (t : TrainerT) (x y : Array) (epochs batch : Z)
    (validation_data : Array * Array) : call Log
| Evaluator_evaluate (e : EvaluatorT) (x y : Array) (return_nparray : bool) : call Metrics
| print_ (objs : list pyval) : call unit
| time_time : call float
| open_ (path mode : string) : call File
| file_enter (f : File) : call File
| pickle_dump (obj : gmap string pyval) (f : File) : call unit
| file_exit (f : File) : call unit.

(** *** Programs: trees of calls *)

(** The continuation of a call receives the answer, exception or value,
    so that a program can in principle handle an exception. *)
Inductive prog (A : Type) : Type :=
| Ret (a : A)
| Throw (e : pyexn)
| Vis {X : Type} (c : call X) (k : res X -> prog A).

Arguments Ret {A} a.
Arguments Throw {A} e.
Arguments Vis {A X} c k.

Fixpoint bind {A B : Type} (p : prog A) (f : A -> prog B) : prog B :=
  match p with
  | Ret a => f a
  | Throw e => Throw e
  | Vis c k => Vis c (fun r => bind (k r) f)
  end.

(** A plain call: an exception of the callee propagates. *)
Definition perform {X : Type} (c : call X) : prog X :=
  Vis c (fun r => match r with inl e => Throw e | inr x => Ret x end).

(** [d[k]] *)
Definition getitem {V : Type} (d : gmap string V) (k : string) : prog V :=
  match d !! k with
  | Some v => Ret v
  | None => Throw (KeyError k)
  end.

Definition lift {A : Type} (r : res A) : prog A :=
  match r with inl e => Throw e | inr a => Ret a end.

(** [try: p finally: fin], with a [fin] that returns [None]: [fin] runs
    whether or not [p] raised, and an exception of [p] is raised again
    after it unless [fin] raises one itself. *)
Fixpoint finally {A : Type} (p : prog A) (fin : prog unit) : prog A :=
  match p with
  | Ret a => bind fin (fun _ => Ret a)
  | Throw e => bind fin (fun _ => Throw e)
  | Vis c k => Vis c (fun r => finally (k r) fin)
  end.

(** [with mgr as f: body f] for a file [mgr]: the body runs on the result
    of [__enter__]; [__exit__] closes the file and returns [None], so it
    never swallows an exception of the body. *)
Definition with_file {A : Type} (mgr : File) (body : File -> prog A) : prog A :=
  bind (perform (file_enter mgr)) (fun f =>
    finally (body f) (perform (file_exit mgr))).

#[export] Instance prog_ret : MRet prog := @Ret.
#[export] Instance prog_bind : MBind prog := fun A B f p => bind p f.

(** ** The script *)

(** [vars(args)]: the attribute dictionary of the namespace. *)
Definition vars_ (args : Namespace) : gmap string pyval :=
  list_to_map
    [("seed", of_seed (seed args));
     ("backend", VStr (backend args));
     ("epoch", VInt (epoch args));
     ("batch_size", VInt (batch_size args));
     ("learning_rule", VStr (learning_rule args));
     ("layer", VStr (layer args));
     ("hidden", VInt (hidden args));
     ("firing_thresh", VFloat (firing_thresh args));
     ("learning_rate", VFloat (learning_rate args));
     ("eprop_mode", VStr (eprop_mode args));
     ("reg", VBool (reg args));
     ("reg_coeff", VFloat (reg_coeff args));
     ("reg_target", VInt (reg_target args))].

(** Lines 81-85: [task_log = vars(args)] followed by four item
    assignments.  [vars] returns the namespace's own dictionary, so the
    assignments also add attributes to [args]; [args] is not read again
    afterwards. *)
Definition task_log_of (args : Namespace) (training_log : Log)
    (completion_time : Z) (test_result : Metrics) : gmap string pyval :=
  let task_log := vars_ args in
  let task_log := <["name" := VStr "timit"]> task_log in
  let task_log := <["log" := VLog training_log]> task_log in
  let task_log := <["completion_time" := VInt completion_time]> task_log in
  let task_log := <["test_result" := VMetrics test_result]> task_log in
  task_log.

(** Lines 59-61, the closure [loss_with_reg].  It reads [args.reg_coeff]
    when called; nothing assigns to that attribute. *)
Definition loss_with_reg (args : Namespace) (loss_fn regularization_fn : LossFn)
  : LossFn :=
  fun model x y_true =>
    tensor_add (loss_fn model x y_true)
               (tensor_rmul (reg_coeff args) (regularization_fn model x y_true)).

(** Lines 43-87: everything after the dispatch. *)
Definition experiment (args : Namespace) (layer_c : layer_cls)
    (rule_c : rule_cls) (n : backend_mod) : prog unit :=
  dataset ← perform (TimitDataset_new 32 "timit_processed" "mfccs" false);
  '(x_train, y_train, _, _) ← perform (get_train_batch dataset);
  '(x_test, y_test, _, _) ← perform (get_test_batch dataset);
  x_train ← perform (astype x_train np_float32);
  y_train ← perform (astype y_train np_float32);
  x_test ← perform (astype x_test np_float32);
  y_test ← perform (astype y_test np_float32);
  k ← perform (n_phns dataset);
  y_train ← perform (categorical_to_onehot n y_train k);
  k ← perform (n_phns dataset);
  y_test ← perform (categorical_to_onehot n y_test k);
  loss ← (if String.eqb (lower (learning_rule args)) "bptt" && reg args then
             loss_fn ← perform (get_loss "categorical_crossentropy" n []);
             regularization_fn ←
               perform (get_loss "firing_rate_regularization" n
                          [("firing_rate_target", VInt (reg_target args))]);
             Ret (LossCallable (loss_with_reg args loss_fn regularization_fn))
           else Ret (LossName "categorical_crossentropy"));
  k ← perform (n_phns dataset);
  rnn ← perform (layer_new layer_c (hidden args) k n "classification" true
                    (firing_thresh args) (seed args));
  evaluated_model ← perform (Evaluator_new rnn loss ["accuracy"; "firing_rate"]);
  opt ← perform (Adam_new (learning_rate args));
  algo ← perform (learning_rule_new rule_c evaluated_model opt (eprop_mode args)
                     (reg args) (reg_coeff args) (reg_target args));
  trainer ← perform (Trainer_new algo);
  training_log ← perform (Trainer_train trainer x_train y_train (epoch args)
                             (batch_size args) (x_test, y_test));
  test_result ← perform (Evaluator_evaluate evaluated_model x_test y_test true);
  _ ← perform (print_ [VStr "Test: "; VMetrics test_result]);
  now ← perform time_time;
  completion_time ← lift (int_ now);
  let task_log := task_log_of args training_log completion_time test_result in
  f ← perform (open_ ("timit_" +:+ pretty completion_time +:+ ".pkl") "wb");
  with_file f (fun f => perform (pickle_dump task_log f)).

(** Lines 36-87: [main] once the arguments are parsed. *)
Definition main (args : Namespace) : prog unit :=
  layer_c ← getitem _layers (lower (layer args));
  rule_c ← getitem _learning_rules (lower (learning_rule args));
  n ← getitem _backends (lower (backend args));
  experiment args layer_c rule_c n.

(** ** Running a program against an environment *)

(** One record per call made: the call and the answer it got. *)
Inductive entry : Type :=
| Called {X : Type} (c : call X) (r : res X).

(** The environment: everything outside the script.  It answers a call
    from its current state and moves to a new state. *)
Context {World : Type}.
Variable env : forall X : Type, call X -> World -> res X * World.

Fixpoint run {A : Type} (p : prog A) (w : World) : list entry * World * res A :=
  match p with
  | Ret a => ([], w, inr a)
  | Throw e => ([], w, inl e)
  | Vis c k =>
      let '(r, w1) := env _ c w in
      let '(tr, w2, out) := run (k r) w1 in
      (Called c r :: tr, w2, out)
  end.

Definition trace_of {A : Type} (p : prog A) (w : World) : list entry :=
  (run p w).1.1.

Definition outcome_of {A : Type} (p : prog A) (w : World) : res A :=
  (run p w).2.

(** *** Reading a trace *)

(** The exception that a call was answered with, if any. *)
Definition raised (e : entry) : option pyexn :=
  match e with
  | Called _ (inl x) => Some x
  | Called _ (inr _) => None
  end.

(** The arguments of a call to [TimitDataset(...)]. *)
Definition dataset_args (e : entry) : option (Z * string * string * bool) :=
  match e with
  | Called (TimitDataset_new b dp pp u) _ => Some (b, dp, pp, u)
  | _ => None
  end.

(** The arguments of a call to [categorical_to_onehot]. *)
Definition onehot_args (e : entry) : option (backend_mod * Array * Z) :=
  match e with
  | Called (categorical_to_onehot n y k) _ => Some (n, y, k)
  | _ => None
  end.

(** The [loss=] argument of a call to [Evaluator(...)]. *)
Definition evaluator_loss (e : entry) : option loss_arg :=
  match e with
  | Called (Evaluator_new _ loss _) _ => Some loss
  | _ => None
  end.

(** The class called and the keyword arguments [mode],
    [firing_rate_regularization], [c_reg] and [f_target] of a call to the
    learning-rule constructor. *)
Definition rule_args (e : entry) : option (rule_cls * string * bool * float * Z) :=
  match e with
  | Called (learning_rule_new cls _ _ mode frr c f) _ => Some (cls, mode, frr, c, f)
  | _ => None
  end.

(** The arguments of a call to [trainer.train]: [x], [y], [epochs],
    [batch_size] and [validation_data]. *)
Definition train_args (e : entry) : option (Array * Array * Z * Z * (Array * Array)) :=
  match e with
  | Called (Trainer_train _ x y ep b v) _ => Some (x, y, ep, b, v)
  | _ => None
  end.

(** The log that a call to [trainer.train] returned. *)
Definition train_log (e : entry) : option Log :=
  match e with
  | Called (Trainer_train _ _ _ _ _ _) (inr l) => Some l
  | _ => None
  end.

(** The arguments of a call to [evaluated_model.evaluate]. *)
Definition evaluate_args (e : entry) : option (Array * Array * bool) :=
  match e with
  | Called (Evaluator_evaluate _ x y b) _ => Some (x, y, b)
  | _ => None
  end.

(** The metrics that a call to [evaluated_model.evaluate] returned. *)
Definition test_metrics (e : entry) : option Metrics :=
  match e with
  | Called (Evaluator_evaluate _ _ _ _) (inr m) => Some m
  | _ => None
  end.

(** The float that a call to [time.time] returned. *)
Definition clock (e : entry) : option float :=
  match e with
  | Called time_time (inr t) => Some t
  | _ => None
  end.

(** The arguments of a call to [open]. *)
Definition open_args (e : entry) : option (string * string) :=
  match e with
  | Called (open_ path mode) _ => Some (path, mode)
  | _ => None
  end.

(** The mapping and the file passed to [pickle.dump]. *)
Definition dump_args (e : entry) : option (gmap string pyval * File) :=
  match e with
  | Called (pickle_dump m f) _ => Some (m, f)
  | _ => None
  end.

(** The arguments of a call to [astype]. *)
Definition astype_args (e : entry) : option (Array * dtype) :=
  match e with
  | Called (astype a t) _ => Some (a, t)
  | _ => None
  end.

(** The arguments of a call to [get_loss]. *)
Definition get_loss_args (e : entry)
  : option (string * backend_mod * list (string * pyval)) :=
  match e with
  | Called (get_loss name n kwargs) _ => Some (name, n, kwargs)
  | _ => None
  end.

(** The arguments of a call to [get_loss] together with the callable that
    it returned. *)
Definition get_loss_result (e : entry)
  : option (string * backend_mod * list (string * pyval) * LossFn) :=
  match e with
  | Called (get_loss name n kwargs) (inr f) => Some (name, n, kwargs, f)
  | _ => None
  end.

(** The path and mode of a call to [open] together with the file that it
    returned. *)
Definition open_result (e : entry) : option (string * string * File) :=
  match e with
  | Called (open_ path mode) (inr f) => Some (path, mode, f)
  | _ => None
  end.

(** The manager and the result of a call to a file's [__enter__]. *)
Definition enter_result (e : entry) : option (File * File) :=
  match e with
  | Called (file_enter f0) (inr f) => Some (f0, f)
  | _ => None
  end.

(** The exception that a file's [__exit__] raised. *)
Definition exit_raised (e : entry) : option pyexn :=
  match e with
  | Called (file_exit _) (inl x) => Some x
  | _ => None
  end.

(** The class called by a call to a layer constructor. *)
Definition layer_class (e : entry) : option layer_cls :=
  match e with
  | Called (layer_new cls _ _ _ _ _ _ _) _ => Some cls
  | _ => None
  end.

(** The objects passed to [print]. *)
Definition print_args (e : entry) : option (list pyval) :=
  match e with
  | Called (print_ objs) _ => Some objs
  | _ => None
  end.

(** The file whose [__exit__] is called. *)
Definition exit_args (e : entry) : option File :=
  match e with
  | Called (file_exit f) _ => Some f
  | _ => None
  end.

(** The trainer that a call to [Trainer(...)] returned. *)
Definition trainer_built (e : entry) : option TrainerT :=
  match e with
  | Called (Trainer_new _) (inr t) => Some t
  | _ => None
  end.

(** The mapping of a call to [pickle.dump] that returned. *)
Definition dumped (e : entry) : option (gmap string pyval) :=
  match e with
  | Called (pickle_dump m _) (inr _) => Some m
  | _ => None
  end.

(** *** Comparing two programs call by call *)

(** [sim R p q]: [p] and [q] make calls related by [R] at every step,
    whatever the answers, and end in the same way. *)
Inductive sim (R : forall X : Type, call X -> call X -> Prop) {A : Type}
  : prog A -> prog A -> Prop :=
| sim_Ret (a : A) : sim R (Ret a) (Ret a)
| sim_Throw (e : pyexn) : sim R (Throw e) (Throw e)
| sim_Vis (X : Type) (c c' : call X) (k k' : res X -> prog A) :
    R X c c' -> (forall r, sim R (k r) (k' r)) -> sim R (Vis c k) (Vis c' k').

(** Two calls that are the same except for the [batch_size] argument of
    [trainer.train] and the ["batch_size"] entry of the pickled mapping. *)
Inductive same_but_batch : forall X : Type, call X -> call X -> Prop :=
| sbb_same (X : Type) (c : call X) : same_but_batch X c c
| sbb_train t x y ep b b' v :
    same_but_batch _ (Trainer_train t x y ep b v) (Trainer_train t x y ep b' v)
| sbb_dump m m' f :
    delete "batch_size" m = delete "batch_size" m' ->
    same_but_batch _ (pickle_dump m f) (pickle_dump m' f).

End Script.

(** The namespace parsed from the same command line with another value of
    [--batch_size]. *)
Definition with_batch_size (b : Z) (args : Namespace) : Namespace := {|
  seed := seed args;
  backend := backend args;
  epoch := epoch args;
  batch_size := b;
  learning_rule := learning_rule args;
  layer := layer args;
  hidden := hidden args;
  firing_thresh := firing_thresh args;
  learning_rate := learning_rate args;
  eprop_mode := eprop_mode args;
  reg := reg args;
  reg_coeff := reg_coeff args;
  reg_target := reg_target args
|}.

Arguments Ret {L A} a.
Arguments Throw {L A} e.
Arguments Vis {L A X} c k.
Arguments task_log_of : simpl never.
Arguments vars_ : simpl never.

(** ** A concrete library and environment, for running the script *)

Module Demo.

(** Arrays are numbered, so that the data flow shows in a trace; a loss
    value is an integer. *)
#[export] Instance lib : Library := {|
  Dataset := unit;
  Array := nat;
  Tensor := Z;
  Model := unit;
  EvaluatorT := unit;
  Optimizer := unit;
  Rule := unit;
  TrainerT := unit;
  Log := list nat;
  Metrics := list nat;
  File := unit;
  tensor_add := Z.add;
  tensor_rmul := fun c t => match int_ c with inr z => z * t | inl _ => 0 end
|}.

(** What each call returns when it does not raise. *)
Definition answer {X : Type} (c : call X) : X :=
  match c in call X return X with
  | TimitDataset_new _ _ _ _ => tt
  | get_train_batch _ => (1, 2, 3, 4)%nat
  | get_test_batch _ => (5, 6, 7, 8)%nat
  | n_phns _ => 61
  | astype a _ => (a + 10)%nat
  | categorical_to_onehot _ y _ => (y + 100)%nat
  | get_loss name _ _ => fun _ _ _ => Z.of_nat (String.length name)
  | layer_new _ _ _ _ _ _ _ _ => tt
  | Evaluator_new _ _ _ => tt
  | Adam_new _ => tt
  | learning_rule_new _ _ _ _ _ _ _ => tt
  | Trainer_new _ => tt
  | Trainer_train _ _ _ _ _ _ => [3; 2; 1]%nat
  | Evaluator_evaluate _ _ _ _ => [9; 9]%nat
  | print_ _ => tt
  | time_time => S754_finite false 1700000000 0
  | open_ _ _ => tt
  | file_enter f => f
  | pickle_dump _ _ => tt
  | file_exit _ => tt
  end.

(** The state of the environment is the number of calls answered so far;
    the calls whose number satisfies [fails] raise. *)
Definition env (fails : nat -> bool) (X : Type) (c : call X) (w : nat)
  : res X * nat :=
  (if fails w then inl (Exception "RuntimeError" "injected") else inr (answer c), S w).

Definition never : nat -> bool := fun _ => false.
Definition at_call (i : nat) : nat -> bool := Nat.eqb i.
Definition from_call (i : nat) : nat -> bool := Nat.leb i.

(** An environment in which nothing raises and whose state also holds the
    value of the clock, in seconds. *)
Definition clock_env (X : Type) (c : call X) (w : nat * positive)
  : res X * (nat * positive) :=
  match c in call X return call X -> res X * (nat * positive) with
  | time_time => fun _ => (inr (S754_finite false w.2 0), (S w.1, w.2))
  | _ => fun c' => (inr (answer c'), (S w.1, w.2))
  end c.

(** The exception that the environment raises. *)
Definition injected : pyexn := Exception "RuntimeError" "injected".

(** [--layer cnn] *)
Definition cnn_args : Namespace := {|
  seed := None; backend := "pytorch"; epoch := 30; batch_size := 32;
  learning_rule := "eprop"; layer := "cnn"; hidden := 200;
  firing_thresh := firing_thresh default_args;
  learning_rate := learning_rate default_args;
  eprop_mode := "adaptive"; reg := false;
  reg_coeff := reg_coeff default_args; reg_target := 10
|}.

(** [--layer alif --learning_rule EPROP --backend PyTorch] *)
Definition recased_args : Namespace := {|
  seed := None; backend := "PyTorch"; epoch := 30; batch_size := 32;
  learning_rule := "EPROP"; layer := "alif"; hidden := 200;
  firing_thresh := firing_thresh default_args;
  learning_rate := learning_rate default_args;
  eprop_mode := "adaptive"; reg := false;
  reg_coeff := reg_coeff default_args; reg_target := 10
|}.

(** [--learning_rule BPTT --reg --reg_coeff 2.0 --seed 7 --backend tf] *)
Definition bptt_reg_args : Namespace := {|
  seed := Some 7; backend := "tf"; epoch := 30; batch_size := 32;
  learning_rule := "BPTT"; layer := "ALIF"; hidden := 200;
  firing_thresh := firing_thresh default_args;
  learning_rate := learning_rate default_args;
  eprop_mode := "adaptive"; reg := true;
  reg_coeff := S754_finite false 2 0; reg_target := 10
|}.

(** [--reg] with the default learning rule, eprop *)
Definition eprop_reg_args : Namespace := {|
  seed := None; backend := "pytorch"; epoch := 30; batch_size := 32;
  learning_rule := "eprop"; layer := "ALIF"; hidden := 200;
  firing_thresh := firing_thresh default_args;
  learning_rate := learning_rate default_args;
  eprop_mode := "adaptive"; reg := true;
  reg_coeff := reg_coeff default_args; reg_target := 10
|}.

(** [--layer cnn --backend jax]: two unknown options *)
Definition two_unknown_args : Namespace := {|
  seed := None; backend := "jax"; epoch := 30; batch_size := 32;
  learning_rule := "eprop"; layer := "cnn"; hidden := 200;
  firing_thresh := firing_thresh default_args;
  learning_rate := learning_rate default_args;
  eprop_mode := "adaptive"; reg := false;
  reg_coeff := reg_coeff default_args; reg_target := 10
|}.

(** [--layer rnn --learning_rule bptt --backend TORCH --seed 7 --hidden 64
    --epoch 5 --batch_size 8 --reg --reg_target 20] *)
Definition other_torch_args : Namespace := {|
  seed := Some 7; backend := "TORCH"; epoch := 5; batch_size := 8;
  learning_rule := "bptt"; layer := "rnn"; hidden := 64;
  firing_thresh := firing_thresh default_args;
  learning_rate := learning_rate default_args;
  eprop_mode := "adaptive"; reg := true;
  reg_coeff := reg_coeff default_args; reg_target := 20
|}.

(** The entries of the run on the defaults, when nothing raises. *)
Definition prepared : list entry :=
  [Called (TimitDataset_new 32 "timit_processed" "mfccs" false) (inr ());
   Called (get_train_batch ()) (inr (1, 2, 3, 4)%nat);
   Called (get_test_batch ()) (inr (5, 6, 7, 8)%nat);
   Called (astype 1%nat np_float32) (inr 11%nat);
   Called (astype 2%nat np_float32) (inr 12%nat);
   Called (astype 5%nat np_float32) (inr 15%nat);
   Called (astype 6%nat np_float32) (inr 16%nat);
   Called (n_phns ()) (inr 61);
   Called (categorical_to_onehot pytb 12%nat 61) (inr 112%nat);
   Called (n_phns ()) (inr 61);
   Called (categorical_to_onehot pytb 16%nat 61) (inr 116%nat)].

Definition assembled (args : Namespace) : list entry :=
  [Called (n_phns ()) (inr 61);
   Called (layer_new ALIFRNNModel 200 61 pytb "classification" true
             (firing_thresh args) None) (inr ());
   Called (Evaluator_new () (LossName "categorical_crossentropy")
             ["accuracy"; "firing_rate"]) (inr ());
   Called (Adam_new (learning_rate args)) (inr ());
   Called (learning_rule_new Eprop () () "adaptive" (reg args) (reg_coeff args) 10)
          (inr ());
   Called (Trainer_new ()) (inr ())].

Definition train_entry (args : Namespace) (r : res Log) : entry :=
  Called (Trainer_train () 11%nat 112%nat 30 (batch_size args) (15%nat, 116%nat)) r.

Definition open_entry : entry :=
  Called (open_ "timit_1700000000.pkl" "wb") (inr ()).

Definition dump_entry (args : Namespace) (r : res unit) : entry :=
  Called (pickle_dump (task_log_of args [3; 2; 1]%nat 1700000000 [9; 9]%nat) ()) r.

Definition finished (args : Namespace) : list entry :=
  [train_entry args (inr [3; 2; 1]%nat);
   Called (Evaluator_evaluate () 15%nat 116%nat true) (inr [9; 9]%nat);
   Called (print_ [VStr "Test: "; VMetrics [9; 9]%nat]) (inr ());
   Called time_time (inr (S754_finite false 1700000000 0));
   open_entry;
   Called (file_enter ()) (inr ());
   dump_entry args (inr ());
   Called (file_exit ()) (inr ())].

(** The callables that [get_loss] returns here. *)
Definition cc_fn : LossFn := fun _ _ _ => 24.
Definition fr_fn : LossFn := fun _ _ _ => 26.

Definition bptt_evaluator_entry : entry :=
  Called (Evaluator_new () (LossCallable (loss_with_reg bptt_reg_args cc_fn fr_fn))
            ["accuracy"; "firing_rate"]) (inr ()).

End Demo.

(** ** Properties of the script *)

Section Properties.

Context {L : Library} {World : Type}.
Variable env : forall X : Type, call X -> World -> res X * World.

(** *** The dispatch tables *)

Lemma layers_keys (k : string) :
  _layers !! k = None <-> k ∉ ["rnn"; "lif"; "alif"].
Proof.
  unfold _layers. rewrite !lookup_insert_None, lookup_empty, !not_elem_of_cons.
  rewrite elem_of_nil. intuition congruence.
Qed.

Lemma learning_rules_keys (k : string) :
  _learning_rules !! k = None <-> k ∉ ["bptt"; "eprop"].
Proof.
  unfold _learning_rules. rewrite !lookup_insert_None, lookup_empty, !not_elem_of_cons.
  rewrite elem_of_nil. intuition congruence.
Qed.

Lemma backends_keys (k : string) :
  _backends !! k = None <-> k ∉ ["torch"; "pytorch"; "pyt"; "tf"; "tensorflow"].
Proof.
  unfold _backends. rewrite !lookup_insert_None, lookup_empty, !not_elem_of_cons.
  rewrite elem_of_nil. intuition congruence.
Qed.

(** *** Running [bind], [perform] and a failing lookup *)

Lemma run_bind {A B : Type} (p : prog A) (f : A -> prog B) (w : World) :
  run env (bind p f) w =
  match run env p w with
  | (tr, w1, inl e) => (tr, w1, inl e)
  | (tr, w1, inr a) =>
      let '(tr2, w2, out) := run env (f a) w1 in ((tr ++ tr2)%list, w2, out)
  end.
Proof.
  revert w. induction p as [a|e|X c k IH]; intros w; cbn [bind run].
  - destruct (run env (f a) w) as [[tr2 w2] out]. reflexivity.
  - reflexivity.
  - destruct (env X c w) as [r w1]. rewrite IH.
    destruct (run env (k r) w1) as [[tr w2] [e|a]]; [reflexivity|].
    destruct (run env (f a) w2) as [[tr2 w3] out]. reflexivity.
Qed.

Lemma run_getitem_None {V B : Type} (d : gmap string V) (k : string)
    (f : V -> prog B) (w : World) :
  d !! k = None -> run env (bind (getitem d k) f) w = ([], w, inl (KeyError k)).
Proof. intros H. unfold getitem. rewrite H. reflexivity. Qed.

Lemma run_getitem_Some {V B : Type} (d : gmap string V) (k : string) (v : V)
    (f : V -> prog B) (w : World) :
  d !! k = Some v -> run env (bind (getitem d k) f) w = run env (f v) w.
Proof. intros H. unfold getitem. rewrite H. reflexivity. Qed.

(** When the three lookups succeed, [main] is the rest of the script on the
    values found. *)
Lemma main_dispatched (args : Namespace) (l : layer_cls) (r : rule_cls) (b : backend_mod) :
  _layers !! lower (layer args) = Some l ->
  _learning_rules !! lower (learning_rule args) = Some r ->
  _backends !! lower (backend args) = Some b ->
  main args = experiment args l r b.
Proof.
  intros Hl Hr Hb. unfold main, getitem, mbind, prog_bind.
  rewrite Hl, Hr, Hb. reflexivity.
Qed.

(** *** Symbolic execution of the script against [env] *)

(** The run is kept in a hypothesis [HR : R = run env p w] and unfolded
    there, one call at a time, by cases on the answer of the environment. *)
Ltac exec_cbn HR :=
  cbn [run bind perform lift finally with_file fst snd] in HR.

Ltac exec_call HR :=
  match type of HR with
  | context [env ?X ?c ?w] =>
      let e := fresh "e" in
      let x := fresh "x" in
      let w' := fresh "w" in
      destruct (env X c w) as [[e|x] w'];
      [ | lazymatch type of x with
          | (_ * _)%type => destruct x as [[[? ?] ?] ?]
          | _ => idtac
          end ];
      exec_cbn HR
  end.

Ltac exec_branch HR :=
  match type of HR with
  | context [String.eqb ?a ?b && ?c] =>
      let H := fresh "Hreg" in destruct (String.eqb a b && c) eqn:H; exec_cbn HR
  | context [int_ ?t] =>
      let H := fresh "Hint" in
      let z := fresh "z" in
      destruct (int_ t) as [?|z] eqn:H; exec_cbn HR
  end.

Ltac exec_script HR :=
  unfold experiment, mbind, prog_bind in HR; exec_cbn HR;
  repeat first [exec_call HR | exec_branch HR].

(** Either a lookup fails, and [main] raises [KeyError] on the first missing
    key without having called anything, or the rest of the script runs. *)
Lemma main_cases (args : Namespace) (w : World) :
  (exists k, run env (main args) w = ([], w, inl (KeyError k)) /\
     ((k = lower (layer args) /\ _layers !! k = None) \/
      (k = lower (learning_rule args) /\ _learning_rules !! k = None) \/
      (k = lower (backend args) /\ _backends !! k = None))) \/
  (exists l r b,
      _layers !! lower (layer args) = Some l /\
      _learning_rules !! lower (learning_rule args) = Some r /\
      _backends !! lower (backend args) = Some b /\
      run env (main args) w = run env (experiment args l r b) w).
Proof.
  destruct (_layers !! lower (layer args)) as [l|] eqn:Hl.
  2: { left. eexists. split; [apply run_getitem_None, Hl | auto]. }
  destruct (_learning_rules !! lower (learning_rule args)) as [r|] eqn:Hr.
  2: { left. eexists. split; [|right; left; eauto].
       unfold main, mbind, prog_bind.
       rewrite (run_getitem_Some _ _ _ _ _ Hl). apply run_getitem_None, Hr. }
  destruct (_backends !! lower (backend args)) as [b|] eqn:Hb.
  2: { left. eexists. split; [|right; right; eauto].
       unfold main, mbind, prog_bind.
       rewrite (run_getitem_Some _ _ _ _ _ Hl), (run_getitem_Some _ _ _ _ _ Hr).
       apply run_getitem_None, Hb. }
  right. exists l, r, b. rewrite (main_dispatched args l r b) by assumption. auto.
Qed.

(** Runs [main] symbolically: the goal is left once for each place where the
    run can end, with the trace and the outcome of that run in it. *)
Ltac exec_main args w :=
  unfold trace_of, outcome_of;
  let R := fresh "R" in
  let HR := fresh "HR" in
  remember (run env (main args) w) as R eqn:HR;
  let k := fresh "k" in
  let Hk := fresh "Hk" in
  let l := fresh "l" in
  let r := fresh "r" in
  let b := fresh "b" in
  let Hl := fresh "Hl" in
  let Hr := fresh "Hr" in
  let Hb := fresh "Hb" in
  let E := fresh "E" in
  destruct (main_cases args w) as [(k & E & Hk) | (l & r & b & Hl & Hr & Hb & E)];
  rewrite E in HR; clear E; [ | exec_script HR ];
  subst R; cbn [fst snd].

(** Goes through the entries of an explicit trace. *)
Ltac each_entry tac :=
  repeat (apply Forall_cons_2; [ tac | ]); try apply Forall_nil_2.

(** A property of every entry of a trace, one entry at a time. *)
Ltac by_entries :=
  match goal with
  | |- forall e, e ∈ ?tr -> @?P e => apply (proj1 (Forall_forall P tr))
  end.

(** Computes the projections of an explicit trace. *)
Ltac read_trace :=
  cbn [omap list_omap raised dataset_args onehot_args evaluator_loss rule_args
       train_args train_log evaluate_args test_metrics clock open_args
       open_result enter_result dump_args exit_raised astype_args
       get_loss_args get_loss_result length app].

(** Finds the place of an entry of a given form in an explicit trace. *)
Lemma split_here {A : Type} (x : A) (post : list A) :
  x :: post = ([] ++ x :: post)%list.
Proof. reflexivity. Qed.

Lemma split_later {A : Type} (a x : A) (l pre post : list A) :
  l = (pre ++ x :: post)%list -> a :: l = ((a :: pre) ++ x :: post)%list.
Proof. intros ->. reflexivity. Qed.

Ltac find_split :=
  solve [repeat first [apply split_here | apply split_later]].

Ltac read_entry H :=
  cbn [raised dataset_args onehot_args evaluator_loss rule_args train_args
       train_log evaluate_args test_metrics clock open_args open_result
       enter_result dump_args exit_raised astype_args get_loss_args
       get_loss_result] in H;
  simplify_eq.

Ltac in_list :=
  solve [repeat first [apply list_elem_of_here | apply list_elem_of_further]].

(** *** Dispatch *)

(** C1.  When the lowercased [--layer], [--learning_rule] or [--backend] is
    not a key of its table, [main] raises [KeyError] at the lookup: no call
    into any library has been made (no dataset loading, no training, no
    second attempt), the environment is untouched, and the key reported is
    one of the three lowercased values. *)
Theorem unknown_option_raises_KeyError (args : Namespace) (w : World) :
  lower (layer args) ∉ ["rnn"; "lif"; "alif"] \/
  lower (learning_rule args) ∉ ["bptt"; "eprop"] \/
  lower (backend args) ∉ ["torch"; "pytorch"; "pyt"; "tf"; "tensorflow"] ->
  exists k,
    run env (main args) w = ([], w, inl (KeyError k)) /\
    (k = lower (layer args) \/ k = lower (learning_rule args) \/
     k = lower (backend args)).
Proof.
  intros Hbad.
  destruct (main_cases args w) as [(k & E & Hk) | (l & r & b & Hl & Hr & Hb & _)].
  - exists k. split; [exact E | tauto].
  - exfalso. destruct Hbad as [H | [H | H]].
    + apply layers_keys in H. congruence.
    + apply learning_rules_keys in H. congruence.
    + apply backends_keys in H. congruence.
Qed.

(** C8.  The dispatch ignores letter case.  When the lowercased values of
    the three options are keys of their tables the lookups succeed, and a
    second argument set whose three options have the same lowercasing
    continues with the same layer class, learning rule and backend.  The
    default ["ALIF"] selects the ["alif"] entry, and ["torch"], ["pytorch"]
    and ["pyt"], in any case, select the same backend. *)
Theorem dispatch_ignores_case (args args' : Namespace) :
  lower (layer args) ∈ ["rnn"; "lif"; "alif"] ->
  lower (learning_rule args) ∈ ["bptt"; "eprop"] ->
  lower (backend args) ∈ ["torch"; "pytorch"; "pyt"; "tf"; "tensorflow"] ->
  lower (layer args') = lower (layer args) ->
  lower (learning_rule args') = lower (learning_rule args) ->
  lower (backend args') = lower (backend args) ->
  (exists l r b,
     _layers !! lower (layer args) = Some l /\
     _learning_rules !! lower (learning_rule args) = Some r /\
     _backends !! lower (backend args) = Some b /\
     main args = experiment args l r b /\
     main args' = experiment args' l r b) /\
  (_layers !! lower (layer default_args) = Some ALIFRNNModel /\
   _layers !! "alif" = Some ALIFRNNModel) /\
  (forall s, s ∈ ["torch"; "pytorch"; "pyt"; "TORCH"; "PyTorch"; "Pyt"] ->
     _backends !! lower s = Some pytb).
Proof.
  intros Hl Hr Hb El Er Eb. split; [|split].
  - destruct (_layers !! lower (layer args)) as [l|] eqn:Hl'.
    2: { apply layers_keys in Hl'. contradiction. }
    destruct (_learning_rules !! lower (learning_rule args)) as [r|] eqn:Hr'.
    2: { apply learning_rules_keys in Hr'. contradiction. }
    destruct (_backends !! lower (backend args)) as [b|] eqn:Hb'.
    2: { apply backends_keys in Hb'. contradiction. }
    exists l, r, b. repeat split; try reflexivity.
    + apply main_dispatched; assumption.
    + apply main_dispatched; congruence.
  - split; reflexivity.
  - intros s Hs. rewrite !elem_of_cons, elem_of_nil in Hs.
    destruct Hs as [-> | [-> | [-> | [-> | [-> | [-> | []]]]]]]; reflexivity.
Qed.

(** *** Exceptions *)

(** C6.  Whenever a call made by [main] raises, [main] raises: no answer
    of a callee is handled.  The exception that leaves [main] is the
    callee's own.  The one call after which the script still runs code is a
    failing [pickle.dump] inside the [with] block, which is followed by the
    file's [__exit__]; if that raises as well, its exception is the one that
    leaves [main]. *)
Theorem callee_exception_propagates (args : Namespace) (w : World)
    (e : entry) (x : pyexn) :
  e ∈ trace_of env (main args) w ->
  raised e = Some x ->
  exists x',
    outcome_of env (main args) w = inl x' /\
    (x' = x \/
     (is_Some (dump_args e) /\
      x' ∈ omap exit_raised (trace_of env (main args) w))).
Proof.
  intros He. revert x. revert e He. by_entries.
  exec_main args w.
  all: each_entry ltac:(intros y Hy; read_entry Hy).
  all: read_trace.
  all: eexists; (split; [reflexivity|]).
  all: first [ left; reflexivity
             | right; read_trace; split; [eexists; reflexivity | in_list] ].
Qed.

(** *** The loss and the learning rule *)

Lemma bptt_and_reg (args : Namespace) :
  String.eqb (lower (learning_rule args)) "bptt" && reg args = true <->
  lower (learning_rule args) = "bptt" /\ reg args = true.
Proof. rewrite andb_true_iff, String.eqb_eq. reflexivity. Qed.

(** C2.  The loss handed to [Evaluator] is a callable exactly when the
    lowercased [--learning_rule] is ["bptt"] and [--reg] is set.  It is then
    the sum of what [get_loss('categorical_crossentropy', backend=n)]
    returned and [reg_coeff] times what [get_loss('firing_rate_regularization',
    backend=n, firing_rate_target=reg_target)] returned, both applied to
    [(model, x, y_true)], for the selected backend [n].  In every other case
    it is the string ['categorical_crossentropy'], and [get_loss] is not
    called. *)
Theorem evaluator_loss_selection (args : Namespace) (w : World)
    (e : entry) (loss : loss_arg) :
  e ∈ trace_of env (main args) w ->
  evaluator_loss e = Some loss ->
  ((exists f, loss = LossCallable f) <->
   lower (learning_rule args) = "bptt" /\ reg args = true) /\
  (lower (learning_rule args) = "bptt" /\ reg args = true ->
   exists n cc fr f,
     _backends !! lower (backend args) = Some n /\
     ("categorical_crossentropy", n, [], cc)
       ∈ omap get_loss_result (trace_of env (main args) w) /\
     ("firing_rate_regularization", n,
      [("firing_rate_target", VInt (reg_target args))], fr)
       ∈ omap get_loss_result (trace_of env (main args) w) /\
     loss = LossCallable f /\
     forall model x y_true,
       f model x y_true =
       tensor_add (cc model x y_true)
                  (tensor_rmul (reg_coeff args) (fr model x y_true))) /\
  (~ (lower (learning_rule args) = "bptt" /\ reg args = true) ->
   loss = LossName "categorical_crossentropy" /\
   omap get_loss_args (trace_of env (main args) w) = []).
Proof.
  intros He. revert loss. revert e He. by_entries.
  exec_main args w.
  all: each_entry ltac:(intros y Hy; read_entry Hy).
  all: read_trace.
  all: match goal with
       | Hreg : _ = true |- _ =>
           pose proof (proj1 (bptt_and_reg args) Hreg) as Hc;
           split; [split; [intros _; exact Hc | intros _; eexists; reflexivity] | ];
           split; [intros _ | intros Hn; contradiction];
           exists b; do 3 eexists;
           split; [assumption | ];
           split; [in_list | ];
           split; [in_list | ];
           split; [reflexivity | intros; reflexivity]
       | Hreg : _ = false |- _ =>
           assert (Hc : ~ (lower (learning_rule args) = "bptt" /\ reg args = true))
             by (rewrite <- bptt_and_reg, Hreg; discriminate);
           split; [split; [intros [f Hf]; discriminate | intros; contradiction] | ];
           split; [intros; contradiction | intros _; split; reflexivity]
       end.
Qed.

(** C9.  Whatever the learning rule and whether or not [--reg] is set, the
    learning-rule constructor receives [--reg] as
    [firing_rate_regularization], [--reg_coeff] as [c_reg] and
    [--reg_target] as [f_target] (and [--eprop_mode] as [mode]); the class
    called is the table entry of the lowercased [--learning_rule].  With
    ["eprop"], also when [--reg] is set, the loss handed to [Evaluator] is the
    string ['categorical_crossentropy'] and [get_loss] is never called, so
    that the constructor is the only place where regularization is
    requested. *)
Theorem regularization_options_forwarded (args : Namespace) (w : World)
    (e : entry) (cls : rule_cls) (mode : string) (frr : bool) (c : float) (f : Z) :
  e ∈ trace_of env (main args) w ->
  rule_args e = Some (cls, mode, frr, c, f) ->
  (_learning_rules !! lower (learning_rule args) = Some cls /\
   mode = eprop_mode args /\
   frr = reg args /\ c = reg_coeff args /\ f = reg_target args) /\
  (lower (learning_rule args) = "eprop" ->
   omap evaluator_loss (trace_of env (main args) w)
     = [LossName "categorical_crossentropy"] /\
   omap get_loss_args (trace_of env (main args) w) = []).
Proof.
  intros He Hargs. revert cls mode frr c f Hargs. revert e He. by_entries.
  exec_main args w.
  all: each_entry ltac:(intros cls mode frr c f Hargs; read_entry Hargs).
  all: read_trace.
  all: split; [auto 10|].
  all: intros Hep; try (split; reflexivity).
  all: apply bptt_and_reg in Hreg; destruct Hreg as [Hreg _].
  all: rewrite Hep in Hreg; discriminate.
Qed.

(** *** The result record *)

Lemma task_log_options (args : Namespace) (log : Log) (t : Z) (res : Metrics) :
  let m := task_log_of args log t res in
  m !! "seed" = Some (of_seed (seed args)) /\
  m !! "backend" = Some (VStr (backend args)) /\
  m !! "epoch" = Some (VInt (epoch args)) /\
  m !! "batch_size" = Some (VInt (batch_size args)) /\
  m !! "learning_rule" = Some (VStr (learning_rule args)) /\
  m !! "layer" = Some (VStr (layer args)) /\
  m !! "hidden" = Some (VInt (hidden args)) /\
  m !! "firing_thresh" = Some (VFloat (firing_thresh args)) /\
  m !! "learning_rate" = Some (VFloat (learning_rate args)) /\
  m !! "eprop_mode" = Some (VStr (eprop_mode args)) /\
  m !! "reg" = Some (VBool (reg args)) /\
  m !! "reg_coeff" = Some (VFloat (reg_coeff args)) /\
  m !! "reg_target" = Some (VInt (reg_target args)).
Proof.
  unfold task_log_of, vars_. cbn [list_to_map foldr uncurry fst snd].
  repeat split; simplify_map_eq; reflexivity.
Qed.

Lemma task_log_results (args : Namespace) (log : Log) (t : Z) (res : Metrics) :
  let m := task_log_of args log t res in
  m !! "name" = Some (VStr "timit") /\
  m !! "log" = Some (VLog log) /\
  m !! "completion_time" = Some (VInt t) /\
  m !! "test_result" = Some (VMetrics res).
Proof.
  unfold task_log_of. repeat split; simplify_map_eq; reflexivity.
Qed.

(** The record has exactly seventeen keys. *)
Lemma task_log_keys (args : Namespace) (log : Log) (t : Z) (res : Metrics) :
  dom (task_log_of args log t res) =
  list_to_set
    ["seed"; "backend"; "epoch"; "batch_size"; "learning_rule"; "layer";
     "hidden"; "firing_thresh"; "learning_rate"; "eprop_mode"; "reg";
     "reg_coeff"; "reg_target"; "name"; "log"; "completion_time";
     "test_result"].
Proof.
  unfold task_log_of, vars_. cbn [list_to_map foldr uncurry fst snd].
  rewrite !dom_insert_L, dom_empty_L. cbn [list_to_set foldr]. set_solver.
Qed.

(** C3.  The mapping handed to [pickle.dump] maps each of the thirteen
    option names to its parsed value, ['name'] to ['timit'], ['log'] to the
    log that [trainer.train] returned, ['completion_time'] to the integer
    part of what [time.time] returned, and ['test_result'] to the metrics
    that [evaluate] returned. *)
Theorem pickled_record_contents (args : Namespace) (w : World)
    (e : entry) (m : gmap string pyval) (f : File) :
  e ∈ trace_of env (main args) w ->
  dump_args e = Some (m, f) ->
  (m !! "seed" = Some (of_seed (seed args)) /\
   m !! "backend" = Some (VStr (backend args)) /\
   m !! "epoch" = Some (VInt (epoch args)) /\
   m !! "batch_size" = Some (VInt (batch_size args)) /\
   m !! "learning_rule" = Some (VStr (learning_rule args)) /\
   m !! "layer" = Some (VStr (layer args)) /\
   m !! "hidden" = Some (VInt (hidden args)) /\
   m !! "firing_thresh" = Some (VFloat (firing_thresh args)) /\
   m !! "learning_rate" = Some (VFloat (learning_rate args)) /\
   m !! "eprop_mode" = Some (VStr (eprop_mode args)) /\
   m !! "reg" = Some (VBool (reg args)) /\
   m !! "reg_coeff" = Some (VFloat (reg_coeff args)) /\
   m !! "reg_target" = Some (VInt (reg_target args))) /\
  m !! "name" = Some (VStr "timit") /\
  (exists log,
     omap train_log (trace_of env (main args) w) = [log] /\
     m !! "log" = Some (VLog log)) /\
  (exists now z,
     omap clock (trace_of env (main args) w) = [now] /\
     int_ now = inr z /\
     m !! "completion_time" = Some (VInt z)) /\
  (exists res,
     omap test_metrics (trace_of env (main args) w) = [res] /\
     m !! "test_result" = Some (VMetrics res)).
Proof.
  intros He Hm. revert m f Hm. revert e He. by_entries.
  exec_main args w.
  all: each_entry ltac:(intros m f Hm; read_entry Hm).
  all: read_trace.
  all: match goal with
       | |- context [task_log_of ?a ?l ?t ?r] =>
           destruct (task_log_results a l t r) as (Hname & Hlog & Htime & Hres);
           split; [exact (task_log_options a l t r) | ];
           split; [exact Hname | ];
           split; [exists l; split; [reflexivity | exact Hlog] | ];
           split; [do 2 eexists; split; [reflexivity | split; [eassumption | exact Htime]]
                  | exists r; split; [reflexivity | exact Hres]]
       end.
Qed.

(** *** Data preparation *)

(** C4.  Every call to [trainer.train] comes after the eleven calls that
    load and normalise the data, which open the trace: the dataset is built,
    the train and test batches are fetched, the four arrays are cast to
    [np.float32] (inputs and labels of the train batch, then of the test
    batch), and then the cast labels, and only they, go through
    [categorical_to_onehot] of the selected backend with the value of
    [dataset.n_phns] read just before.  [train] receives the cast inputs, the
    one-hot labels and, as validation data, the cast test inputs with the
    one-hot test labels.  No further cast or one-hot encoding follows. *)
Theorem data_prepared_before_training (args : Namespace) (w : World)
    (e : entry) (x y : Array) (ep bs : Z) (xv yv : Array) :
  e ∈ trace_of env (main args) w ->
  train_args e = Some (x, y, ep, bs, (xv, yv)) ->
  exists n ds x0 y0 a0 b0 xt0 yt0 c0 d0 y1 yt1 k1 k2 post,
    _backends !! lower (backend args) = Some n /\
    trace_of env (main args) w =
      ([Called (TimitDataset_new 32 "timit_processed" "mfccs" false) (inr ds);
        Called (get_train_batch ds) (inr (x0, y0, a0, b0));
        Called (get_test_batch ds) (inr (xt0, yt0, c0, d0));
        Called (astype x0 np_float32) (inr x);
        Called (astype y0 np_float32) (inr y1);
        Called (astype xt0 np_float32) (inr xv);
        Called (astype yt0 np_float32) (inr yt1);
        Called (n_phns ds) (inr k1);
        Called (categorical_to_onehot n y1 k1) (inr y);
        Called (n_phns ds) (inr k2);
        Called (categorical_to_onehot n yt1 k2) (inr yv)] ++ post)%list /\
    e ∈ post /\
    omap astype_args post = [] /\
    omap onehot_args post = [].
Proof.
  intros He Ht. revert x y ep bs xv yv Ht. revert e He. by_entries.
  exec_main args w.
  all: each_entry ltac:(intros x' y' ep bs xv yv Ht; read_entry Ht).
  all: read_trace.
  all: do 15 eexists.
  all: split; [eassumption | ].
  all: split; [reflexivity | ].
  all: split; [in_list | split; reflexivity].
Qed.

(** *** The output file *)

(** C5.  The file is opened for binary writing under the name ['timit_']
    followed by the decimal digits of [int(time.time())] and ['.pkl'], the
    clock being read after [trainer.train] and [evaluate] have returned and
    neither being called afterwards.  The mapping handed to [pickle.dump]
    has that same integer under ['completion_time'], and it is written to
    the file that [open] returned, as entered by the [with] statement. *)
Theorem output_file_named_by_completion_time (args : Namespace) (w : World)
    (e : entry) (path mode : string) :
  e ∈ trace_of env (main args) w ->
  open_args e = Some (path, mode) ->
  exists pre now z post log res,
    trace_of env (main args) w = (pre ++ Called time_time (inr now) :: post)%list /\
    int_ now = inr z /\
    omap train_log pre = [log] /\
    omap test_metrics pre = [res] /\
    omap train_args post = [] /\
    omap evaluate_args post = [] /\
    e ∈ post /\
    path = "timit_" +:+ pretty z +:+ ".pkl" /\
    mode = "wb" /\
    forall e',
      e' ∈ trace_of env (main args) w ->
      forall m f,
      dump_args e' = Some (m, f) ->
      m !! "completion_time" = Some (VInt z) /\
      exists f0,
        omap open_result (trace_of env (main args) w) = [(path, mode, f0)] /\
        omap enter_result (trace_of env (main args) w) = [(f0, f)].
Proof.
  intros He Ho. revert path mode Ho. revert e He. by_entries.
  exec_main args w.
  all: each_entry ltac:(intros path mode Ho; read_entry Ho).
  all: read_trace.
  all: do 6 eexists.
  all: split; [find_split | ].
  all: split; [eassumption | ].
  all: do 4 (split; [reflexivity | ]).
  all: split; [in_list | ].
  all: do 2 (split; [reflexivity | ]).
  all: by_entries.
  all: each_entry ltac:(intros m f Hm; read_entry Hm).
  all: read_trace.
  all: match goal with
       | |- context [task_log_of ?a ?l ?t ?r] =>
           split; [exact (proj1 (proj2 (proj2 (task_log_results a l t r))))
                  | eexists; split; reflexivity]
       end.
Qed.

(** *** Order of training, evaluation and persistence *)

(** C7, as the code has it.  [trainer.train] is called exactly once in
    every run in which [Trainer(...)] has returned, that is in every run that
    reaches the training line, and not at all in a run that ends before;
    [evaluate] is called exactly once in every run in which [trainer.train]
    has returned and not at all otherwise.  So [train], [evaluate] and
    [pickle.dump] are each called at most once, and exactly once in a run
    that returns.  Whenever [evaluate] or [pickle.dump] is called, the trace
    splits around a call to [trainer.train] that returned: before it there is
    no call to [train], [evaluate] or [pickle.dump], and after it no call to
    [train]. *)
Theorem training_once_before_evaluation_and_pickling (args : Namespace) (w : World) :
  ((omap trainer_built (trace_of env (main args) w) <> [] ->
    length (omap train_args (trace_of env (main args) w)) = 1%nat) /\
   (omap trainer_built (trace_of env (main args) w) = [] ->
    omap train_args (trace_of env (main args) w) = []) /\
   (omap train_log (trace_of env (main args) w) <> [] ->
    length (omap evaluate_args (trace_of env (main args) w)) = 1%nat) /\
   (omap train_log (trace_of env (main args) w) = [] ->
    omap evaluate_args (trace_of env (main args) w) = [])) /\
  ((length (omap train_args (trace_of env (main args) w)) <= 1)%nat /\
   (length (omap evaluate_args (trace_of env (main args) w)) <= 1)%nat /\
   (length (omap dump_args (trace_of env (main args) w)) <= 1)%nat) /\
  (outcome_of env (main args) w = inr () ->
   length (omap train_args (trace_of env (main args) w)) = 1%nat /\
   length (omap evaluate_args (trace_of env (main args) w)) = 1%nat /\
   length (omap dump_args (trace_of env (main args) w)) = 1%nat) /\
  (omap evaluate_args (trace_of env (main args) w) <> [] \/
   omap dump_args (trace_of env (main args) w) <> [] ->
   exists pre t x y ep bs v log post,
     trace_of env (main args) w =
       (pre ++ Called (Trainer_train t x y ep bs v) (inr log) :: post)%list /\
     omap train_args pre = [] /\
     omap evaluate_args pre = [] /\
     omap dump_args pre = [] /\
     omap train_args post = []).
Proof.
  exec_main args w.
  all: cbn [omap list_omap trainer_built train_args train_log evaluate_args
            dump_args length app].
  all: split;
       [ repeat split; intros Hbuilt;
         first [ reflexivity | exfalso; apply Hbuilt; reflexivity
               | discriminate Hbuilt ]
       | ].
  all: split; [repeat split; lia | ].
  all: split; [intros Hout; first [discriminate Hout | repeat split; reflexivity] | ].
  all: intros Hlate.
  all: try (exfalso; destruct Hlate as [Hlate | Hlate]; apply Hlate; reflexivity).
  all: do 9 eexists.
  all: split; [find_split | repeat split; reflexivity].
Qed.

(** *** The batch size *)

Lemma task_log_delete_batch_size (args : Namespace) (b : Z) (log : Log) (t : Z)
    (res : Metrics) :
  delete "batch_size" (task_log_of args log t res) =
  delete "batch_size" (task_log_of (with_batch_size b args) log t res).
Proof.
  unfold task_log_of, vars_. cbn [list_to_map foldr uncurry fst snd with_batch_size
    seed backend epoch batch_size learning_rule layer hidden firing_thresh
    learning_rate eprop_mode reg reg_coeff reg_target].
  rewrite !(delete_insert_ne _ "batch_size") by discriminate.
  rewrite !delete_insert_eq. reflexivity.
Qed.

(** One step of the comparison of two runs of the script. *)
Ltac sim_step :=
  cbn [bind perform lift finally with_file];
  match goal with
  | |- sim _ (Throw _) (Throw _) => apply sim_Throw
  | |- sim _ (Ret _) (Ret _) => apply sim_Ret
  | |- sim _ (Vis _ _) (Vis _ _) =>
      apply sim_Vis;
      [ first [ apply sbb_same | apply sbb_train
              | apply sbb_dump, task_log_delete_batch_size ]
      | intros [?|?] ]
  | x : (_ * _)%type |- _ => destruct x
  | |- context [String.eqb ?a ?b && ?c] => destruct (String.eqb a b && c)
  | |- context [int_ ?t] => destruct (int_ t)
  end.

Lemma sim_experiment (args : Namespace) (b : Z) (l : layer_cls) (r : rule_cls)
    (n : backend_mod) :
  sim same_but_batch (experiment args l r n) (experiment (with_batch_size b args) l r n).
Proof.
  unfold experiment, mbind, prog_bind.
  cbn [with_batch_size seed backend epoch batch_size learning_rule layer hidden
       firing_thresh learning_rate eprop_mode reg reg_coeff reg_target].
  repeat sim_step.
Qed.

(** C10, as the code has it.  Every call to [TimitDataset] has the
    arguments [(32, data_path='timit_processed', preproc='mfccs',
    use_reduced_phonem_set=False)], whatever [--batch_size] is.  Run on a
    namespace that differs only in [batch_size], [main] makes the same calls
    with the same arguments in the same order, given the same answers, except
    for the [batch_size] argument of [trainer.train] and the ['batch_size']
    entry of the mapping handed to [pickle.dump]. *)
Theorem batch_size_frame (args : Namespace) (b : Z) (w : World) :
  Forall (fun e => forall a, dataset_args e = Some a ->
                   a = (32, "timit_processed", "mfccs", false))
         (trace_of env (main args) w) /\
  sim same_but_batch (main args) (main (with_batch_size b args)).
Proof.
  split.
  - exec_main args w.
    all: each_entry ltac:(intros dargs Hd; read_entry Hd).
    all: reflexivity.
  - unfold main, mbind, prog_bind, getitem. cbn [with_batch_size layer learning_rule backend].
    destruct (_layers !! lower (layer args)); cbn [bind]; [|apply sim_Throw].
    destruct (_learning_rules !! lower (learning_rule args)); cbn [bind]; [|apply sim_Throw].
    destruct (_backends !! lower (backend args)); cbn [bind]; [|apply sim_Throw].
    apply sim_experiment.
Qed.

(** ** Further properties of the script *)

Ltac read_more H :=
  cbn [layer_class print_args exit_args dumped raised dataset_args onehot_args
       evaluator_loss rule_args train_args train_log evaluate_args
       test_metrics clock open_args open_result enter_result dump_args
       exit_raised astype_args get_loss_args get_loss_result] in H;
  simplify_eq.

Ltac read_all :=
  cbn [omap list_omap layer_class print_args exit_args dumped raised
       dataset_args onehot_args evaluator_loss rule_args train_args train_log
       evaluate_args test_metrics clock open_args open_result enter_result
       dump_args exit_raised astype_args get_loss_args get_loss_result length
       app].

(** *** The lookups, one after the other *)

Lemma layers_table (k : string) (l : layer_cls) :
  _layers !! k = Some l <->
  (k, l) ∈ [("rnn", BasicRNNModel); ("lif", LIFRNNModel); ("alif", ALIFRNNModel)].
Proof.
  unfold _layers. rewrite !lookup_insert_Some, lookup_empty, !elem_of_cons, elem_of_nil.
  split.
  - intros [[<- <-] | [_ [[<- <-] | [_ [[<- <-] | [_ ?]]]]]]; [auto..|discriminate].
  - intros [? | [? | [? | []]]]; simplify_eq; [right; split; [discriminate|];
      right; split; [discriminate|]; left; auto
      | right; split; [discriminate|]; left; auto | left; auto].
Qed.

Lemma learning_rules_table (k : string) (r : rule_cls) :
  _learning_rules !! k = Some r <-> (k, r) ∈ [("bptt", Backprop); ("eprop", Eprop)].
Proof.
  unfold _learning_rules.
  rewrite !lookup_insert_Some, lookup_empty, !elem_of_cons, elem_of_nil.
  split.
  - intros [[<- <-] | [_ [[<- <-] | [_ ?]]]]; [auto..|discriminate].
  - intros [? | [? | []]]; simplify_eq;
      [right; split; [discriminate|]; left; auto | left; auto].
Qed.

Lemma backends_table (k : string) (b : backend_mod) :
  _backends !! k = Some b <->
  (k, b) ∈ [("torch", pytb); ("pytorch", pytb); ("pyt", pytb); ("tf", tfb);
            ("tensorflow", tfb)].
Proof.
  unfold _backends.
  rewrite !lookup_insert_Some, lookup_empty, !elem_of_cons, elem_of_nil.
  split.
  - intros [[<- <-] | [_ [[<- <-] | [_ [[<- <-] | [_ [[<- <-] | [_ [[<- <-] | [_ ?]]]]]]]]]];
      [auto 10..|discriminate].
  - intros [? | [? | [? | [? | [? | []]]]]]; simplify_eq.
    + do 4 (right; split; [discriminate|]). left; auto.
    + do 3 (right; split; [discriminate|]). left; auto.
    + do 2 (right; split; [discriminate|]). left; auto.
    + do 1 (right; split; [discriminate|]). left; auto.
    + left; auto.
Qed.

(** X1.  The three lookups are made in the order layer, learning rule,
    backend, and the first that fails decides the key of the [KeyError]:
    an unknown layer is reported whatever the other two options are, an
    unknown learning rule only when the layer is known, an unknown backend
    only when both are.  The key is spelled out for an ASCII option, where
    [lower] is [str.lower]. *)
Theorem first_unknown_option_is_reported (args : Namespace) (w : World) :
  (is_ascii (layer args) = true ->
   lower (layer args) ∉ ["rnn"; "lif"; "alif"] ->
   run env (main args) w = ([], w, inl (KeyError (lower (layer args))))) /\
  (lower (layer args) ∈ ["rnn"; "lif"; "alif"] ->
   is_ascii (learning_rule args) = true ->
   lower (learning_rule args) ∉ ["bptt"; "eprop"] ->
   run env (main args) w = ([], w, inl (KeyError (lower (learning_rule args))))) /\
  (lower (layer args) ∈ ["rnn"; "lif"; "alif"] ->
   lower (learning_rule args) ∈ ["bptt"; "eprop"] ->
   is_ascii (backend args) = true ->
   lower (backend args) ∉ ["torch"; "pytorch"; "pyt"; "tf"; "tensorflow"] ->
   run env (main args) w = ([], w, inl (KeyError (lower (backend args))))).
Proof.
  assert (Hsome_l : lower (layer args) ∈ ["rnn"; "lif"; "alif"] ->
                    exists l, _layers !! lower (layer args) = Some l).
  { intros Hin. destruct (_layers !! lower (layer args)) as [l|] eqn:E; [eauto|].
    apply layers_keys in E. contradiction. }
  assert (Hsome_r : lower (learning_rule args) ∈ ["bptt"; "eprop"] ->
                    exists r, _learning_rules !! lower (learning_rule args) = Some r).
  { intros Hin. destruct (_learning_rules !! lower (learning_rule args)) as [r|] eqn:E;
      [eauto|]. apply learning_rules_keys in E. contradiction. }
  split; [|split].
  - intros _ Hl. apply layers_keys in Hl. apply run_getitem_None, Hl.
  - intros Hl _ Hr. destruct (Hsome_l Hl) as [l El]. apply learning_rules_keys in Hr.
    unfold main, mbind, prog_bind.
    rewrite (run_getitem_Some _ _ _ _ _ El). apply run_getitem_None, Hr.
  - intros Hl Hr _ Hb. destruct (Hsome_l Hl) as [l El]. destruct (Hsome_r Hr) as [r Er].
    apply backends_keys in Hb. unfold main, mbind, prog_bind.
    rewrite (run_getitem_Some _ _ _ _ _ El), (run_getitem_Some _ _ _ _ _ Er).
    apply run_getitem_None, Hb.
Qed.

(** X2.  What the tables select reaches the calls: the class of every
    layer constructor call, the class of every learning-rule constructor
    call and the backend of every [categorical_to_onehot] call are the table
    entries of the lowercased options. *)
Theorem calls_use_the_selected_implementations (args : Namespace) (w : World)
    (e : entry) :
  e ∈ trace_of env (main args) w ->
  (forall cls, layer_class e = Some cls ->
     (lower (layer args), cls)
       ∈ [("rnn", BasicRNNModel); ("lif", LIFRNNModel); ("alif", ALIFRNNModel)]) /\
  (forall cls mode frr c f, rule_args e = Some (cls, mode, frr, c, f) ->
     (lower (learning_rule args), cls) ∈ [("bptt", Backprop); ("eprop", Eprop)]) /\
  (forall n y k, onehot_args e = Some (n, y, k) ->
     (lower (backend args), n)
       ∈ [("torch", pytb); ("pytorch", pytb); ("pyt", pytb); ("tf", tfb);
          ("tensorflow", tfb)]).
Proof.
  revert e. by_entries. exec_main args w.
  all: each_entry ltac:(
    split; [intros cls Hc; read_more Hc
           | split; [intros cls mode frr c f Hc; read_more Hc
                    | intros n y' k' Hc; read_more Hc]]).
  all: first [ apply layers_table; assumption
             | apply learning_rules_table; assumption
             | apply backends_table; assumption ].
Qed.

(** X3.  With three known options the dataset is the first thing built,
    with the fixed arguments, and it is built once. *)
Theorem dataset_built_first_and_once (args : Namespace) (w : World) :
  lower (layer args) ∈ ["rnn"; "lif"; "alif"] ->
  lower (learning_rule args) ∈ ["bptt"; "eprop"] ->
  lower (backend args) ∈ ["torch"; "pytorch"; "pyt"; "tf"; "tensorflow"] ->
  exists r rest,
    trace_of env (main args) w =
      Called (TimitDataset_new 32 "timit_processed" "mfccs" false) r :: rest /\
    omap dataset_args rest = [].
Proof.
  intros Hl Hr Hb. exec_main args w.
  1: { exfalso. destruct Hk as [[-> Hk] | [[-> Hk] | [-> Hk]]].
       - apply layers_keys in Hk. contradiction.
       - apply learning_rules_keys in Hk. contradiction.
       - apply backends_keys in Hk. contradiction. }
  all: do 2 eexists; split; reflexivity.
Qed.

(** *** Assembly, training and evaluation *)

(** X4.  Every call to [trainer.train] ends a run of seven calls that
    build what is trained: [dataset.n_phns] is read and becomes the output
    size of the selected layer class, built with [--hidden], the selected
    backend, ['classification'], [return_sequence=True], [--firing_thresh]
    and [--seed]; the model goes into [Evaluator] with the metrics accuracy
    and firing rate; [Adam] gets [--learning_rate]; the selected learning
    rule gets that evaluator and that optimizer; [Trainer] gets the rule; and
    that trainer is trained for [--epoch] epochs with [--batch_size]. *)
Theorem model_assembled_before_training (args : Namespace) (w : World)
    (e : entry) (x y : Array) (ep bs : Z) (v : Array * Array) :
  e ∈ trace_of env (main args) w ->
  train_args e = Some (x, y, ep, bs, v) ->
  exists l rc n pre ds k model loss ev opt algo t r post,
    _layers !! lower (layer args) = Some l /\
    _learning_rules !! lower (learning_rule args) = Some rc /\
    _backends !! lower (backend args) = Some n /\
    trace_of env (main args) w =
      (pre ++
       Called (n_phns ds) (inr k)
       :: Called (layer_new l (hidden args) k n "classification" true
                    (firing_thresh args) (seed args)) (inr model)
       :: Called (Evaluator_new model loss ["accuracy"; "firing_rate"]) (inr ev)
       :: Called (Adam_new (learning_rate args)) (inr opt)
       :: Called (learning_rule_new rc ev opt (eprop_mode args) (reg args)
                    (reg_coeff args) (reg_target args)) (inr algo)
       :: Called (Trainer_new algo) (inr t)
       :: Called (Trainer_train t x y (epoch args) (batch_size args) v) r
       :: post)%list /\
    e = Called (Trainer_train t x y (epoch args) (batch_size args) v) r /\
    ep = epoch args /\ bs = batch_size args.
Proof.
  intros He Ht. revert x y ep bs v Ht. revert e He. by_entries.
  exec_main args w.
  all: each_entry ltac:(intros x' y' ep bs v Ht; read_more Ht).
  all: do 14 eexists.
  all: do 3 (split; [eassumption | ]).
  all: split; [find_split | ].
  all: repeat split; reflexivity.
Qed.

(** X5.  [evaluate] is called with [return_nparray=True], right after
    [trainer.train] has returned, on the evaluator that was handed to the
    learning rule and on the very arrays that were the validation data of
    the training. *)
Theorem evaluation_on_the_validation_data (args : Namespace) (w : World)
    (e : entry) (x y : Array) (flag : bool) :
  e ∈ trace_of env (main args) w ->
  evaluate_args e = Some (x, y, flag) ->
  exists pre model loss ms ev lr opt rc mode frr c f algo t xt yt ep bs log r post,
    trace_of env (main args) w =
      (pre ++
       Called (Evaluator_new model loss ms) (inr ev)
       :: Called (Adam_new lr) (inr opt)
       :: Called (learning_rule_new rc ev opt mode frr c f) (inr algo)
       :: Called (Trainer_new algo) (inr t)
       :: Called (Trainer_train t xt yt ep bs (x, y)) (inr log)
       :: Called (Evaluator_evaluate ev x y true) r
       :: post)%list /\
    e = Called (Evaluator_evaluate ev x y true) r /\
    flag = true.
Proof.
  intros He Hv. revert x y flag Hv. revert e He. by_entries.
  exec_main args w.
  all: each_entry ltac:(intros x' y' flag Hv; read_more Hv).
  all: do 21 eexists.
  all: split; [find_split | split; reflexivity].
Qed.

(** X6.  What [print] shows is the label ['Test: '] and the metrics that
    [evaluate] returned, the same metrics that the record holds under
    ['test_result']. *)
Theorem printed_result_is_the_saved_one (args : Namespace) (w : World)
    (e : entry) (objs : list pyval) :
  e ∈ trace_of env (main args) w ->
  print_args e = Some objs ->
  exists res,
    omap test_metrics (trace_of env (main args) w) = [res] /\
    objs = [VStr "Test: "; VMetrics res] /\
    forall m, m ∈ omap dumped (trace_of env (main args) w) ->
              m !! "test_result" = Some (VMetrics res).
Proof.
  intros He Hp. revert objs Hp. revert e He. by_entries.
  exec_main args w.
  all: each_entry ltac:(intros objs Hp; read_more Hp).
  all: read_all.
  all: eexists; split; [reflexivity | split; [reflexivity | ]].
  all: intros m Hm.
  all: repeat match goal with
         | H : _ ∈ [] |- _ => apply elem_of_nil in H; contradiction
         | H : _ ∈ _ :: _ |- _ => apply elem_of_cons in H; destruct H as [-> | H]
         end.
  all: apply task_log_results.
Qed.

(** *** Failures and persistence *)

(** X7.  [pickle.dump] returns only in a run in which no earlier call
    raised: no call of the run other than the file's [__exit__] has raised,
    and [main] then either returns or raises what that [__exit__] raised.
    So a run whose training, evaluation, printing or clock read fails leaves
    no record, whatever was computed before. *)
Theorem record_saved_only_if_all_succeeded (args : Namespace) (w : World)
    (m : gmap string pyval) :
  m ∈ omap dumped (trace_of env (main args) w) ->
  Forall (fun e => raised e = None \/ is_Some (exit_args e))
         (trace_of env (main args) w) /\
  (outcome_of env (main args) w = inr () \/
   exists x, outcome_of env (main args) w = inl x /\
             omap exit_raised (trace_of env (main args) w) = [x]).
Proof.
  exec_main args w.
  all: read_all.
  all: intros Hm;
       try (apply elem_of_nil in Hm; contradiction).
  all: repeat match goal with u : unit |- _ => destruct u end.
  all: split;
       [ each_entry ltac:(first [left; reflexivity | right; eexists; reflexivity])
       | first [left; reflexivity | right; eexists; split; reflexivity] ].
Qed.

(** X8.  An exception that leaves [main] is never of the script's own
    making, with two exceptions: the [KeyError] of a failed lookup, raised
    before any call, whose key is missing from one of the three tables (and,
    for ASCII options, is one of the three lowercased options), and the error
    of [int] on a clock value that is not finite, raised right after the
    clock was read and with no call having raised.  In every other case it is
    the last exception that a call of the run was answered with. *)
Theorem raised_exception_origin (args : Namespace) (w : World) (x : pyexn) :
  outcome_of env (main args) w = inl x ->
  (trace_of env (main args) w = [] /\
   exists k, x = KeyError k /\
     (_layers !! k = None \/ _learning_rules !! k = None \/ _backends !! k = None) /\
     (is_ascii (layer args) = true ->
      is_ascii (learning_rule args) = true ->
      is_ascii (backend args) = true ->
      k ∈ [lower (layer args); lower (learning_rule args); lower (backend args)])) \/
  last (omap raised (trace_of env (main args) w)) = Some x \/
  (omap raised (trace_of env (main args) w) = [] /\
   exists e now, last (trace_of env (main args) w) = Some e /\
     clock e = Some now /\ int_ now = inl x).
Proof.
  exec_main args w.
  1: { intros Hx. left. split; [reflexivity|]. injection Hx as <-.
       exists k. split; [reflexivity|]. split.
       - destruct Hk as [[_ Hk] | [[_ Hk] | [_ Hk]]]; auto.
       - intros _ _ _. rewrite !elem_of_cons.
         destruct Hk as [[-> _] | [[-> _] | [-> _]]]; auto. }
  all: intros Hx; try discriminate Hx; injection Hx as <-; right.
  all: read_all; cbn [last].
  all: first [ left; reflexivity
             | right; split; [reflexivity | ];
               do 2 eexists; split; [reflexivity | split; [reflexivity | assumption]] ].
Qed.

(** X9.  When [main] returns, no call has raised, every step was taken
    once, and the run consists of twenty-five calls, or twenty-seven when
    the loss is built from [get_loss]. *)
Theorem normal_return (args : Namespace) (w : World) :
  outcome_of env (main args) w = inr () ->
  Forall (fun e => raised e = None) (trace_of env (main args) w) /\
  length (trace_of env (main args) w) =
    (if String.eqb (lower (learning_rule args)) "bptt" && reg args
     then 27 else 25)%nat /\
  length (omap dumped (trace_of env (main args) w)) = 1%nat /\
  length (omap exit_args (trace_of env (main args) w)) = 1%nat.
Proof.
  exec_main args w.
  all: intros Hx; try discriminate Hx.
  all: split; [each_entry ltac:(reflexivity) | repeat split; reflexivity].
Qed.

(** X10.  The file's [__exit__] is called exactly when its [__enter__] has
    returned, whether or not [pickle.dump] raises, and it is called on the
    object that [open] returned. *)
Theorem file_closed_when_entered (args : Namespace) (w : World) :
  omap exit_args (trace_of env (main args) w)
    = (omap enter_result (trace_of env (main args) w)).*1 /\
  forall f0, f0 ∈ omap exit_args (trace_of env (main args) w) ->
    exists path mode,
      omap open_result (trace_of env (main args) w) = [(path, mode, f0)].
Proof.
  exec_main args w.
  all: read_all.
  all: split; [reflexivity | ].
  all: intros f0 Hf.
  all: repeat match goal with
         | H : _ ∈ [] |- _ => apply elem_of_nil in H; contradiction
         | H : _ ∈ _ :: _ |- _ => apply elem_of_cons in H; destruct H as [-> | H]
         end.
  all: do 2 eexists; reflexivity.
Qed.

(** X11.  The mapping handed to [pickle.dump] has seventeen keys: the
    thirteen option names and ['name'], ['log'], ['completion_time'] and
    ['test_result'], and nothing else. *)
Theorem pickled_record_keys (args : Namespace) (w : World) (e : entry)
    (m : gmap string pyval) (f : File) :
  e ∈ trace_of env (main args) w ->
  dump_args e = Some (m, f) ->
  dom m =
  list_to_set
    ["seed"; "backend"; "epoch"; "batch_size"; "learning_rule"; "layer";
     "hidden"; "firing_thresh"; "learning_rate"; "eprop_mode"; "reg";
     "reg_coeff"; "reg_target"; "name"; "log"; "completion_time";
     "test_result"].
Proof.
  intros He Hm. revert m f Hm. revert e He. by_entries.
  exec_main args w.
  all: each_entry ltac:(intros m f Hm; read_more Hm).
  all: apply task_log_keys.
Qed.

(** *** The name of the output file *)

Lemma string_length_app (a s : string) :
  String.length (a +:+ s) = (String.length a + String.length s)%nat.
Proof. induction a as [|c a IH]; simpl; [reflexivity | rewrite IH; reflexivity]. Qed.

Lemma string_app_inj_r (a b s : string) : a +:+ s = b +:+ s -> a = b.
Proof.
  revert b. induction a as [|c a IH]; intros [|d b] H.
  - reflexivity.
  - apply (f_equal String.length) in H. rewrite !string_length_app in H.
    simpl in H. lia.
  - apply (f_equal String.length) in H. rewrite !string_length_app in H.
    simpl in H. lia.
  - simpl in H. injection H as -> H. f_equal. apply IH, H.
Qed.

(** The path of every [open] comes from the one clock value of the run. *)
Lemma opened_path (args : Namespace) (w : World) (e : entry) (path mode : string) :
  e ∈ trace_of env (main args) w ->
  open_args e = Some (path, mode) ->
  exists now z,
    omap clock (trace_of env (main args) w) = [now] /\
    int_ now = inr z /\
    path = "timit_" +:+ pretty z +:+ ".pkl".
Proof.
  intros He Ho. revert path mode Ho. revert e He. by_entries.
  exec_main args w.
  all: each_entry ltac:(intros path mode Ho; read_more Ho).
  all: read_all.
  all: do 2 eexists; split; [reflexivity | split; [eassumption | reflexivity]].
Qed.

(** X12.  The name of the output file determines the completion time and
    the other way round: two runs of the script, whatever their options,
    open the same path exactly when their clocks, truncated to whole
    seconds, agree.  Runs that complete within the same second therefore
    write to the same file. *)
Theorem same_output_path_iff_same_second (args1 args2 : Namespace) (w1 w2 : World)
    (e1 e2 : entry) (path1 path2 mode1 mode2 : string) :
  e1 ∈ trace_of env (main args1) w1 ->
  open_args e1 = Some (path1, mode1) ->
  e2 ∈ trace_of env (main args2) w2 ->
  open_args e2 = Some (path2, mode2) ->
  exists now1 now2 z1 z2,
    omap clock (trace_of env (main args1) w1) = [now1] /\
    omap clock (trace_of env (main args2) w2) = [now2] /\
    int_ now1 = inr z1 /\
    int_ now2 = inr z2 /\
    (path1 = path2 <-> z1 = z2).
Proof.
  intros He1 Ho1 He2 Ho2.
  destruct (opened_path args1 w1 e1 path1 mode1 He1 Ho1) as (now1 & z1 & Hc1 & Hz1 & ->).
  destruct (opened_path args2 w2 e2 path2 mode2 He2 Ho2) as (now2 & z2 & Hc2 & Hz2 & ->).
  exists now1, now2, z1, z2. repeat split; try assumption.
  - intros H. apply (inj (String.app "timit_")) in H.
    apply string_app_inj_r in H. apply (inj pretty) in H. exact H.
  - intros ->. reflexivity.
Qed.

(** *** What the data preparation depends on *)

Ltac prep_step :=
  match goal with
  | |- context [env ?X ?c ?w] =>
      let e := fresh "e" in
      let x := fresh "x" in
      let w' := fresh "w" in
      destruct (env X c w) as [[e|x] w'];
      [ | lazymatch type of x with
          | (_ * _)%type => destruct x as [[[? ?] ?] ?]
          | _ => idtac
          end ];
      cbn [run bind perform fst snd]
  end.

(** X13.  Loading and preparing the data depends on no option but
    [--backend]: two argument sets that select the same backend make, in the
    same environment, the same first eleven calls with the same arguments
    and get the same answers, whatever their seeds, layers, learning rules,
    sizes and regularization options are. *)
Theorem preparation_depends_only_on_backend (args args' : Namespace) (w : World) :
  lower (layer args) ∈ ["rnn"; "lif"; "alif"] ->
  lower (layer args') ∈ ["rnn"; "lif"; "alif"] ->
  lower (learning_rule args) ∈ ["bptt"; "eprop"] ->
  lower (learning_rule args') ∈ ["bptt"; "eprop"] ->
  lower (backend args) ∈ ["torch"; "pytorch"; "pyt"; "tf"; "tensorflow"] ->
  _backends !! lower (backend args') = _backends !! lower (backend args) ->
  take 11 (trace_of env (main args') w) = take 11 (trace_of env (main args) w).
Proof.
  intros Hl Hl' Hr Hr' Hb Hb'.
  destruct (_layers !! lower (layer args)) as [l|] eqn:El.
  2: { apply layers_keys in El. contradiction. }
  destruct (_layers !! lower (layer args')) as [l'|] eqn:El'.
  2: { apply layers_keys in El'. contradiction. }
  destruct (_learning_rules !! lower (learning_rule args)) as [r|] eqn:Er.
  2: { apply learning_rules_keys in Er. contradiction. }
  destruct (_learning_rules !! lower (learning_rule args')) as [r'|] eqn:Er'.
  2: { apply learning_rules_keys in Er'. contradiction. }
  destruct (_backends !! lower (backend args)) as [n|] eqn:En.
  2: { apply backends_keys in En. contradiction. }
  rewrite (main_dispatched args l r n), (main_dispatched args' l' r' n) by assumption.
  unfold trace_of, experiment, mbind, prog_bind. cbn [run bind perform fst snd].
  repeat prep_step.
  all: repeat match goal with
         | |- context [run env ?p ?w0] => destruct (run env p w0) as [[? ?] ?]
         end.
  all: reflexivity.
Qed.

End Properties.

(** ** The script at work *)

Import Demo.

(** The defaults, with every library call succeeding: twenty-five calls,
    and [main] returns. *)
Example default_run :
  run (Demo.env never) (main default_args) 0%nat =
  ((prepared ++ assembled default_args ++ finished default_args)%list, 25%nat, inr ()).
Proof. reflexivity. Qed.

(** Another batch size changes the call to [train] and the record. *)
Example batch64_run :
  run (Demo.env never) (main (with_batch_size 64 default_args)) 0%nat =
  ((prepared ++ assembled default_args
      ++ finished (with_batch_size 64 default_args))%list, 25%nat, inr ()).
Proof. reflexivity. Qed.

(** Training raises: the exception leaves [main] and nothing is evaluated
    or written. *)
Example failed_training_run :
  run (Demo.env (at_call 17)) (main default_args) 0%nat =
  ((prepared ++ assembled default_args ++ [train_entry default_args (inl injected)])%list,
   18%nat, inl injected).
Proof. reflexivity. Qed.

(** [pickle.dump] raises and so does the closing of the file. *)
Example failed_dump_run :
  run (Demo.env (from_call 23)) (main default_args) 0%nat =
  ((prepared ++ assembled default_args
      ++ take 6 (finished default_args)
      ++ [dump_entry default_args (inl injected);
          Called (file_exit ()) (inl injected)])%list,
   25%nat, inl injected).
Proof. reflexivity. Qed.

(** With [eprop] and [--reg] the loss stays a name. *)
Example eprop_reg_run :
  trace_of (Demo.env never) (main eprop_reg_args) 0%nat =
  (prepared ++ assembled eprop_reg_args ++ finished eprop_reg_args)%list.
Proof. reflexivity. Qed.

(** With [bptt] and [--reg], [get_loss] is called twice and the loss is the
    closure; on any input it is 24 + 2 * 26. *)
Example bptt_reg_run :
  omap get_loss_args (trace_of (Demo.env never) (main bptt_reg_args) 0%nat) =
    [("categorical_crossentropy", tfb, []);
     ("firing_rate_regularization", tfb, [("firing_rate_target", VInt 10)])] /\
  omap evaluator_loss (trace_of (Demo.env never) (main bptt_reg_args) 0%nat) =
    [LossCallable (loss_with_reg bptt_reg_args cc_fn fr_fn)] /\
  loss_with_reg bptt_reg_args cc_fn fr_fn () 11%nat 112%nat = 76.
Proof. repeat split; reflexivity. Qed.

Example lower_examples :
  lower "ALIF" = "alif" /\ lower "PyTorch" = "pytorch" /\ lower "tf-2_X" = "tf-2_x".
Proof. repeat split; reflexivity. Qed.

Example int_examples :
  int_ (S754_finite false 3400000001 (-1)) = inr 1700000000 /\
  int_ (S754_finite true 7 (-1)) = inr (-3) /\
  int_ (S754_infinity false) = inl OverflowError.
Proof. repeat split; reflexivity. Qed.

(** ** The theorems at concrete runs *)

Lemma default_trace :
  trace_of (Demo.env never) (main default_args) 0%nat =
  (prepared ++ assembled default_args ++ finished default_args)%list.
Proof. reflexivity. Qed.

Lemma unknown_option_raises_KeyError_witness :
  (lower (layer cnn_args) ∉ ["rnn"; "lif"; "alif"] \/
   lower (learning_rule cnn_args) ∉ ["bptt"; "eprop"] \/
   lower (backend cnn_args) ∉ ["torch"; "pytorch"; "pyt"; "tf"; "tensorflow"]) /\
  exists k,
    run (Demo.env never) (main cnn_args) 0%nat = ([], 0%nat, inl (KeyError k)) /\
    (k = lower (layer cnn_args) \/ k = lower (learning_rule cnn_args) \/
     k = lower (backend cnn_args)).
Proof.
  assert (H : lower (layer cnn_args) ∉ ["rnn"; "lif"; "alif"]) by compute_done.
  split; [left; exact H | ].
  apply (unknown_option_raises_KeyError (Demo.env never) cnn_args 0%nat).
  left. exact H.
Defined.

Lemma dispatch_ignores_case_witness :
  (exists l r b,
     _layers !! lower (layer default_args) = Some l /\
     _learning_rules !! lower (learning_rule default_args) = Some r /\
     _backends !! lower (backend default_args) = Some b /\
     main default_args = experiment default_args l r b /\
     main recased_args = experiment recased_args l r b) /\
  (_layers !! lower (layer default_args) = Some ALIFRNNModel /\
   _layers !! "alif" = Some ALIFRNNModel) /\
  (forall s, s ∈ ["torch"; "pytorch"; "pyt"; "TORCH"; "PyTorch"; "Pyt"] ->
     _backends !! lower s = Some pytb).
Proof.
  apply (dispatch_ignores_case default_args recased_args).
  - compute_done.
  - compute_done.
  - compute_done.
  - reflexivity.
  - reflexivity.
  - reflexivity.
Defined.

Lemma callee_exception_propagates_witness :
  train_entry default_args (inl injected)
    ∈ trace_of (Demo.env (at_call 17)) (main default_args) 0%nat /\
  raised (train_entry default_args (inl injected)) = Some injected /\
  exists x',
    outcome_of (Demo.env (at_call 17)) (main default_args) 0%nat = inl x' /\
    (x' = injected \/
     (is_Some (dump_args (train_entry default_args (inl injected))) /\
      x' ∈ omap exit_raised
             (trace_of (Demo.env (at_call 17)) (main default_args) 0%nat))).
Proof.
  assert (H : train_entry default_args (inl injected)
                ∈ trace_of (Demo.env (at_call 17)) (main default_args) 0%nat).
  { unfold trace_of. rewrite failed_training_run. cbn [fst snd].
    rewrite !elem_of_app. right. right. apply list_elem_of_here. }
  split; [exact H | ]. split; [reflexivity | ].
  apply (callee_exception_propagates (Demo.env (at_call 17)) default_args 0%nat
           (train_entry default_args (inl injected)) injected H).
  reflexivity.
Defined.

Lemma bptt_trace_has_evaluator :
  bptt_evaluator_entry ∈ trace_of (Demo.env never) (main bptt_reg_args) 0%nat.
Proof.
  unfold trace_of. cbv [main experiment mbind prog_bind]. cbn.
  do 15 apply list_elem_of_further. apply list_elem_of_here.
Qed.

Lemma evaluator_loss_selection_witness :
  bptt_evaluator_entry ∈ trace_of (Demo.env never) (main bptt_reg_args) 0%nat /\
  evaluator_loss bptt_evaluator_entry
    = Some (LossCallable (loss_with_reg bptt_reg_args cc_fn fr_fn)) /\
  exists n cc fr f,
    _backends !! lower (backend bptt_reg_args) = Some n /\
    ("categorical_crossentropy", n, [], cc)
      ∈ omap get_loss_result (trace_of (Demo.env never) (main bptt_reg_args) 0%nat) /\
    ("firing_rate_regularization", n,
     [("firing_rate_target", VInt (reg_target bptt_reg_args))], fr)
      ∈ omap get_loss_result (trace_of (Demo.env never) (main bptt_reg_args) 0%nat) /\
    LossCallable (loss_with_reg bptt_reg_args cc_fn fr_fn) = LossCallable f /\
    forall model x y_true,
      f model x y_true =
      tensor_add (cc model x y_true)
                 (tensor_rmul (reg_coeff bptt_reg_args) (fr model x y_true)).
Proof.
  split; [exact bptt_trace_has_evaluator | ]. split; [reflexivity | ].
  apply (evaluator_loss_selection (Demo.env never) bptt_reg_args 0%nat
           bptt_evaluator_entry _ bptt_trace_has_evaluator eq_refl).
  split; reflexivity.
Defined.

Lemma eprop_trace_has_rule :
  Called (learning_rule_new Eprop () () "adaptive" true
            (reg_coeff default_args) 10) (inr ())
    ∈ trace_of (Demo.env never) (main eprop_reg_args) 0%nat.
Proof.
  rewrite eprop_reg_run, !elem_of_app. right. left.
  do 4 apply list_elem_of_further. apply list_elem_of_here.
Qed.

Lemma regularization_options_forwarded_witness :
  Called (learning_rule_new Eprop () () "adaptive" true
            (reg_coeff default_args) 10) (inr ())
    ∈ trace_of (Demo.env never) (main eprop_reg_args) 0%nat /\
  (_learning_rules !! lower (learning_rule eprop_reg_args) = Some Eprop /\
   "adaptive" = eprop_mode eprop_reg_args /\
   true = reg eprop_reg_args /\
   reg_coeff default_args = reg_coeff eprop_reg_args /\
   10 = reg_target eprop_reg_args) /\
  omap evaluator_loss (trace_of (Demo.env never) (main eprop_reg_args) 0%nat)
    = [LossName "categorical_crossentropy"] /\
  omap get_loss_args (trace_of (Demo.env never) (main eprop_reg_args) 0%nat) = [].
Proof.
  split; [exact eprop_trace_has_rule | ].
  destruct (regularization_options_forwarded (Demo.env never) eprop_reg_args 0%nat
              _ Eprop "adaptive" true (reg_coeff default_args) 10
              eprop_trace_has_rule eq_refl) as [Hfwd Hloss].
  split; [exact Hfwd | exact (Hloss eq_refl)].
Defined.

Lemma default_trace_has_dump :
  dump_entry default_args (inr ())
    ∈ trace_of (Demo.env never) (main default_args) 0%nat.
Proof.
  rewrite default_trace, !elem_of_app. right. right.
  do 6 apply list_elem_of_further. apply list_elem_of_here.
Qed.

Lemma pickled_record_contents_witness :
  dump_entry default_args (inr ())
    ∈ trace_of (Demo.env never) (main default_args) 0%nat /\
  (task_log_of default_args [3; 2; 1]%nat 1700000000 [9; 9]%nat !! "layer"
     = Some (VStr "ALIF") /\
   task_log_of default_args [3; 2; 1]%nat 1700000000 [9; 9]%nat !! "name"
     = Some (VStr "timit") /\
   task_log_of default_args [3; 2; 1]%nat 1700000000 [9; 9]%nat !! "log"
     = Some (VLog [3; 2; 1]%nat) /\
   task_log_of default_args [3; 2; 1]%nat 1700000000 [9; 9]%nat !! "completion_time"
     = Some (VInt 1700000000) /\
   task_log_of default_args [3; 2; 1]%nat 1700000000 [9; 9]%nat !! "test_result"
     = Some (VMetrics [9; 9]%nat)).
Proof.
  split; [exact default_trace_has_dump | ].
  destruct (pickled_record_contents (Demo.env never) default_args 0%nat
              _ _ _ default_trace_has_dump eq_refl)
    as (Hopts & Hname & (log & Hlogs & Hlog) & (now & z & Hnow & Hz & Htime)
        & (res & Hress & Hres)).
  rewrite default_trace in Hlogs, Hnow, Hress.
  injection Hlogs as <-. injection Hnow as <-. injection Hress as <-.
  injection Hz as <-.
  destruct Hopts as (_ & _ & _ & _ & _ & Hlayer & _).
  split; [exact Hlayer | ]. split; [exact Hname | ]. split; [exact Hlog | ].
  split; [exact Htime | exact Hres].
Defined.

Lemma default_trace_has_train :
  train_entry default_args (inr [3; 2; 1]%nat)
    ∈ trace_of (Demo.env never) (main default_args) 0%nat.
Proof.
  rewrite default_trace, !elem_of_app. right. right. apply list_elem_of_here.
Qed.

Lemma data_prepared_before_training_witness :
  train_entry default_args (inr [3; 2; 1]%nat)
    ∈ trace_of (Demo.env never) (main default_args) 0%nat /\
  train_args (train_entry default_args (inr [3; 2; 1]%nat))
    = Some (11%nat, 112%nat, 30, 32, (15%nat, 116%nat)) /\
  exists n ds x0 y0 a0 b0 xt0 yt0 c0 d0 y1 yt1 k1 k2 post,
    _backends !! lower (backend default_args) = Some n /\
    trace_of (Demo.env never) (main default_args) 0%nat =
      ([Called (TimitDataset_new 32 "timit_processed" "mfccs" false) (inr ds);
        Called (get_train_batch ds) (inr (x0, y0, a0, b0));
        Called (get_test_batch ds) (inr (xt0, yt0, c0, d0));
        Called (astype x0 np_float32) (inr 11%nat);
        Called (astype y0 np_float32) (inr y1);
        Called (astype xt0 np_float32) (inr 15%nat);
        Called (astype yt0 np_float32) (inr yt1);
        Called (n_phns ds) (inr k1);
        Called (categorical_to_onehot n y1 k1) (inr 112%nat);
        Called (n_phns ds) (inr k2);
        Called (categorical_to_onehot n yt1 k2) (inr 116%nat)] ++ post)%list /\
    train_entry default_args (inr [3; 2; 1]%nat) ∈ post /\
    omap astype_args post = [] /\
    omap onehot_args post = [].
Proof.
  split; [exact default_trace_has_train | ]. split; [reflexivity | ].
  exact (data_prepared_before_training (Demo.env never) default_args 0%nat
           _ 11%nat 112%nat 30 32 15%nat 116%nat default_trace_has_train eq_refl).
Defined.

Lemma default_trace_has_open :
  open_entry ∈ trace_of (Demo.env never) (main default_args) 0%nat.
Proof.
  rewrite default_trace, !elem_of_app. right. right.
  do 4 apply list_elem_of_further. apply list_elem_of_here.
Qed.

Lemma output_file_named_by_completion_time_witness :
  open_entry ∈ trace_of (Demo.env never) (main default_args) 0%nat /\
  open_args open_entry = Some ("timit_1700000000.pkl", "wb") /\
  exists z : Z,
    "timit_1700000000.pkl" = "timit_" +:+ pretty z +:+ ".pkl" /\
    forall m f,
      dump_args (dump_entry default_args (inr ())) = Some (m, f) ->
      m !! "completion_time" = Some (VInt z).
Proof.
  split; [exact default_trace_has_open | ]. split; [reflexivity | ].
  destruct (output_file_named_by_completion_time (Demo.env never) default_args 0%nat
              _ _ _ default_trace_has_open eq_refl)
    as (pre & now & z & post & log & res & _ & _ & _ & _ & _ & _ & _ & Hpath & _ & Hdump).
  exists z. split; [exact Hpath | ].
  intros m f Hm.
  exact (proj1 (Hdump _ default_trace_has_dump m f Hm)).
Defined.

(** *** Where the code departs from the claims as written *)

(** C7 as written fails: on [--layer cnn] the run of [main] ends at the
    lookup and [trainer.train] is called zero times, not once. *)
Lemma no_training_when_dispatch_fails :
  run (Demo.env never) (main cnn_args) 0%nat = ([], 0%nat, inl (KeyError "cnn")) /\
  length (omap train_args (trace_of (Demo.env never) (main cnn_args) 0%nat)) <> 1%nat.
Proof. split; [reflexivity | discriminate]. Qed.

(** The same when the dataset cannot be loaded. *)
Example no_training_when_loading_fails :
  trace_of (Demo.env (at_call 0)) (main default_args) 0%nat =
    [Called (TimitDataset_new 32 "timit_processed" "mfccs" false) (inl injected)] /\
  outcome_of (Demo.env (at_call 0)) (main default_args) 0%nat = inl injected.
Proof. split; reflexivity. Qed.

(** C10 as written fails: with the same environment, two runs that differ
    only in [--batch_size] hand different mappings to [pickle.dump], so the
    option reaches a call other than [trainer.train]. *)
Lemma batch_size_reaches_pickled_record :
  exists m m' : gmap string pyval,
    omap dump_args (trace_of (Demo.env never) (main default_args) 0%nat)
      = [(m, ())] /\
    omap dump_args
      (trace_of (Demo.env never) (main (with_batch_size 64 default_args)) 0%nat)
      = [(m', ())] /\
    m !! "batch_size" = Some (VInt 32) /\
    m' !! "batch_size" = Some (VInt 64) /\
    m <> m'.
Proof.
  exists (task_log_of (L:=Demo.lib) default_args [3; 2; 1]%nat 1700000000 [9; 9]%nat),
    (task_log_of (L:=Demo.lib) (with_batch_size 64 default_args) [3; 2; 1]%nat 1700000000 [9; 9]%nat).
  assert (H32 : task_log_of (L:=Demo.lib) default_args [3; 2; 1]%nat 1700000000 [9; 9]%nat
                  !! "batch_size" = Some (VInt 32)).
  { apply (task_log_options default_args). }
  assert (H64 : task_log_of (L:=Demo.lib) (with_batch_size 64 default_args) [3; 2; 1]%nat
                  1700000000 [9; 9]%nat !! "batch_size" = Some (VInt 64)).
  { apply (task_log_options (with_batch_size 64 default_args)). }
  split; [reflexivity | ]. split; [reflexivity | ].
  split; [exact H32 | ]. split; [exact H64 | ].
  intros Heq. rewrite Heq, H64 in H32. discriminate.
Qed.

(** ** The further properties at concrete runs *)

Ltac in_trace :=
  cbv [prepared assembled finished train_entry open_entry dump_entry app];
  solve [repeat first [apply list_elem_of_here | apply list_elem_of_further]].

Lemma first_unknown_option_is_reported_witness :
  is_ascii (layer two_unknown_args) = true /\
  (lower (layer two_unknown_args) ∉ ["rnn"; "lif"; "alif"]) /\
  (lower (backend two_unknown_args)
     ∉ ["torch"; "pytorch"; "pyt"; "tf"; "tensorflow"]) /\
  run (Demo.env never) (main two_unknown_args) 0%nat = ([], 0%nat, inl (KeyError "cnn")).
Proof.
  assert (H : lower (layer two_unknown_args) ∉ ["rnn"; "lif"; "alif"]) by compute_done.
  split; [reflexivity | ]. split; [exact H | ]. split; [compute_done | ].
  exact (proj1 (first_unknown_option_is_reported (Demo.env never) two_unknown_args 0%nat)
           eq_refl H).
Defined.

Lemma default_trace_has_layer :
  Called (layer_new ALIFRNNModel 200 61 pytb "classification" true
            (firing_thresh default_args) None) (inr ())
    ∈ trace_of (Demo.env never) (main default_args) 0%nat.
Proof. rewrite default_trace. in_trace. Qed.

Lemma calls_use_the_selected_implementations_witness :
  Called (layer_new ALIFRNNModel 200 61 pytb "classification" true
            (firing_thresh default_args) None) (inr ())
    ∈ trace_of (Demo.env never) (main default_args) 0%nat /\
  (lower (layer default_args), ALIFRNNModel)
    ∈ [("rnn", BasicRNNModel); ("lif", LIFRNNModel); ("alif", ALIFRNNModel)].
Proof.
  split; [exact default_trace_has_layer | ].
  exact (proj1 (calls_use_the_selected_implementations (Demo.env never) default_args
                  0%nat _ default_trace_has_layer) ALIFRNNModel eq_refl).
Defined.

Lemma dataset_built_first_and_once_witness :
  exists r rest,
    trace_of (Demo.env never) (main default_args) 0%nat =
      Called (TimitDataset_new 32 "timit_processed" "mfccs" false) r :: rest /\
    omap dataset_args rest = [].
Proof.
  apply (dataset_built_first_and_once (Demo.env never) default_args 0%nat);
    compute_done.
Defined.

Lemma model_assembled_before_training_witness :
  train_entry default_args (inr [3; 2; 1]%nat)
    ∈ trace_of (Demo.env never) (main default_args) 0%nat /\
  exists l rc n pre ds k model loss ev opt algo t r post,
    _layers !! lower (layer default_args) = Some l /\
    _learning_rules !! lower (learning_rule default_args) = Some rc /\
    _backends !! lower (backend default_args) = Some n /\
    trace_of (Demo.env never) (main default_args) 0%nat =
      (pre ++
       Called (n_phns ds) (inr k)
       :: Called (layer_new l (hidden default_args) k n "classification" true
                    (firing_thresh default_args) (seed default_args)) (inr model)
       :: Called (Evaluator_new model loss ["accuracy"; "firing_rate"]) (inr ev)
       :: Called (Adam_new (learning_rate default_args)) (inr opt)
       :: Called (learning_rule_new rc ev opt (eprop_mode default_args)
                    (reg default_args) (reg_coeff default_args)
                    (reg_target default_args)) (inr algo)
       :: Called (Trainer_new algo) (inr t)
       :: Called (Trainer_train t 11%nat 112%nat (epoch default_args)
                    (batch_size default_args) (15%nat, 116%nat)) r
       :: post)%list /\
    train_entry default_args (inr [3; 2; 1]%nat)
      = Called (Trainer_train t 11%nat 112%nat (epoch default_args)
                  (batch_size default_args) (15%nat, 116%nat)) r /\
    30 = epoch default_args /\ 32 = batch_size default_args.
Proof.
  split; [exact default_trace_has_train | ].
  exact (model_assembled_before_training (Demo.env never) default_args 0%nat
           _ 11%nat 112%nat 30 32 (15%nat, 116%nat) default_trace_has_train eq_refl).
Defined.

Lemma default_trace_has_evaluate :
  Called (Evaluator_evaluate () 15%nat 116%nat true) (inr [9; 9]%nat)
    ∈ trace_of (Demo.env never) (main default_args) 0%nat.
Proof. rewrite default_trace. in_trace. Qed.

Lemma evaluation_on_the_validation_data_witness :
  Called (Evaluator_evaluate () 15%nat 116%nat true) (inr [9; 9]%nat)
    ∈ trace_of (Demo.env never) (main default_args) 0%nat /\
  exists pre model loss ms ev lr opt rc mode frr c f algo t xt yt ep bs log r post,
    trace_of (Demo.env never) (main default_args) 0%nat =
      (pre ++
       Called (Evaluator_new model loss ms) (inr ev)
       :: Called (Adam_new lr) (inr opt)
       :: Called (learning_rule_new rc ev opt mode frr c f) (inr algo)
       :: Called (Trainer_new algo) (inr t)
       :: Called (Trainer_train t xt yt ep bs (15%nat, 116%nat)) (inr log)
       :: Called (Evaluator_evaluate ev 15%nat 116%nat true) r
       :: post)%list /\
    Called (Evaluator_evaluate () 15%nat 116%nat true) (inr [9; 9]%nat)
      = Called (Evaluator_evaluate ev 15%nat 116%nat true) r /\
    true = true.
Proof.
  split; [exact default_trace_has_evaluate | ].
  exact (evaluation_on_the_validation_data (Demo.env never) default_args 0%nat
           _ 15%nat 116%nat true default_trace_has_evaluate eq_refl).
Defined.

Lemma default_trace_has_print :
  Called (print_ [VStr "Test: "; VMetrics [9; 9]%nat]) (inr ())
    ∈ trace_of (Demo.env never) (main default_args) 0%nat.
Proof. rewrite default_trace. in_trace. Qed.

Lemma printed_result_is_the_saved_one_witness :
  Called (print_ [VStr "Test: "; VMetrics [9; 9]%nat]) (inr ())
    ∈ trace_of (Demo.env never) (main default_args) 0%nat /\
  exists res,
    omap test_metrics (trace_of (Demo.env never) (main default_args) 0%nat) = [res] /\
    [VStr "Test: "; VMetrics [9; 9]%nat] = [VStr "Test: "; VMetrics res] /\
    forall m, m ∈ omap dumped (trace_of (Demo.env never) (main default_args) 0%nat) ->
              m !! "test_result" = Some (VMetrics res).
Proof.
  split; [exact default_trace_has_print | ].
  exact (printed_result_is_the_saved_one (Demo.env never) default_args 0%nat
           _ _ default_trace_has_print eq_refl).
Defined.

Lemma default_trace_dumped :
  omap dumped (trace_of (Demo.env never) (main default_args) 0%nat) =
  [task_log_of default_args [3; 2; 1]%nat 1700000000 [9; 9]%nat].
Proof. rewrite default_trace. reflexivity. Qed.

Lemma record_saved_only_if_all_succeeded_witness :
  task_log_of default_args [3; 2; 1]%nat 1700000000 [9; 9]%nat
    ∈ omap dumped (trace_of (Demo.env never) (main default_args) 0%nat) /\
  Forall (fun e => raised e = None \/ is_Some (exit_args e))
         (trace_of (Demo.env never) (main default_args) 0%nat) /\
  (outcome_of (Demo.env never) (main default_args) 0%nat = inr () \/
   exists x, outcome_of (Demo.env never) (main default_args) 0%nat = inl x /\
             omap exit_raised (trace_of (Demo.env never) (main default_args) 0%nat) = [x]).
Proof.
  assert (H : task_log_of default_args [3; 2; 1]%nat 1700000000 [9; 9]%nat
                ∈ omap dumped (trace_of (Demo.env never) (main default_args) 0%nat)).
  { rewrite default_trace_dumped. apply list_elem_of_here. }
  split; [exact H | ].
  exact (record_saved_only_if_all_succeeded (Demo.env never) default_args 0%nat _ H).
Defined.

Lemma raised_exception_origin_witness :
  outcome_of (Demo.env (at_call 17)) (main default_args) 0%nat = inl injected /\
  last (omap raised (trace_of (Demo.env (at_call 17)) (main default_args) 0%nat))
    = Some injected.
Proof.
  split; [reflexivity | ].
  destruct (raised_exception_origin (Demo.env (at_call 17)) default_args 0%nat
              injected eq_refl) as [[Hnil _] | [Hlast | [Hnone _]]].
  - discriminate Hnil.
  - exact Hlast.
  - discriminate Hnone.
Defined.

Lemma normal_return_witness :
  outcome_of (Demo.env never) (main default_args) 0%nat = inr () /\
  Forall (fun e => raised e = None)
         (trace_of (Demo.env never) (main default_args) 0%nat) /\
  length (trace_of (Demo.env never) (main default_args) 0%nat) = 25%nat /\
  length (omap dumped (trace_of (Demo.env never) (main default_args) 0%nat)) = 1%nat /\
  length (omap exit_args (trace_of (Demo.env never) (main default_args) 0%nat)) = 1%nat.
Proof.
  split; [reflexivity | ].
  exact (normal_return (Demo.env never) default_args 0%nat eq_refl).
Defined.

Lemma pickled_record_keys_witness :
  dump_entry default_args (inr ())
    ∈ trace_of (Demo.env never) (main default_args) 0%nat /\
  dom (task_log_of default_args [3; 2; 1]%nat 1700000000 [9; 9]%nat) =
  list_to_set
    ["seed"; "backend"; "epoch"; "batch_size"; "learning_rule"; "layer";
     "hidden"; "firing_thresh"; "learning_rate"; "eprop_mode"; "reg";
     "reg_coeff"; "reg_target"; "name"; "log"; "completion_time";
     "test_result"].
Proof.
  split; [exact default_trace_has_dump | ].
  exact (pickled_record_keys (Demo.env never) default_args 0%nat _ _ _
           default_trace_has_dump eq_refl).
Defined.

(** Two runs one second apart. *)
Lemma clock_run_has_open (t : positive) (args : Namespace) :
  _layers !! lower (layer args) = Some ALIFRNNModel ->
  _learning_rules !! lower (learning_rule args) = Some Eprop ->
  _backends !! lower (backend args) = Some pytb ->
  Called (open_ ("timit_" +:+ pretty (Z.pos t) +:+ ".pkl") "wb") (inr ())
    ∈ trace_of clock_env (main args) (0%nat, t).
Proof.
  intros Hl Hr Hb. rewrite (main_dispatched args _ _ _ Hl Hr Hb).
  unfold trace_of, experiment, mbind, prog_bind.
  cbn [run bind perform lift finally with_file clock_env answer fst snd int_ Z.shiftl].
  destruct (String.eqb (lower (learning_rule args)) "bptt" && reg args);
    cbn [run bind perform lift finally with_file clock_env answer fst snd int_ Z.shiftl].
  - do 23 apply list_elem_of_further. apply list_elem_of_here.
  - do 21 apply list_elem_of_further. apply list_elem_of_here.
Qed.

Lemma same_output_path_iff_same_second_witness :
  Called (open_ "timit_1700000000.pkl" "wb") (inr ())
    ∈ trace_of clock_env (main default_args) (0%nat, 1700000000%positive) /\
  Called (open_ "timit_1700000001.pkl" "wb") (inr ())
    ∈ trace_of clock_env (main recased_args) (0%nat, 1700000001%positive) /\
  exists now1 now2 z1 z2,
    omap clock (trace_of clock_env (main default_args) (0%nat, 1700000000%positive))
      = [now1] /\
    omap clock (trace_of clock_env (main recased_args) (0%nat, 1700000001%positive))
      = [now2] /\
    int_ now1 = inr z1 /\
    int_ now2 = inr z2 /\
    ("timit_1700000000.pkl" = "timit_1700000001.pkl" <-> z1 = z2).
Proof.
  assert (H1 := clock_run_has_open 1700000000 default_args eq_refl eq_refl eq_refl).
  assert (H2 := clock_run_has_open 1700000001 recased_args eq_refl eq_refl eq_refl).
  split; [exact H1 | ]. split; [exact H2 | ].
  exact (same_output_path_iff_same_second clock_env default_args recased_args
           _ _ _ _ _ _ _ _ H1 eq_refl H2 eq_refl).
Defined.

Lemma preparation_depends_only_on_backend_witness :
  take 11 (trace_of (Demo.env never) (main other_torch_args) 0%nat) = prepared /\
  take 11 (trace_of (Demo.env never) (main other_torch_args) 0%nat)
    = take 11 (trace_of (Demo.env never) (main default_args) 0%nat).
Proof.
  split; [reflexivity | ].
  apply (preparation_depends_only_on_backend (Demo.env never) default_args
           other_torch_args 0%nat); first [compute_done | reflexivity].
Defined.

Lemma training_once_before_evaluation_and_pickling_witness :
  omap trainer_built (trace_of (Demo.env never) (main default_args) 0%nat) <> [] /\
  length (omap train_args (trace_of (Demo.env never) (main default_args) 0%nat)) = 1%nat /\
  omap trainer_built (trace_of (Demo.env (at_call 16)) (main default_args) 0%nat) = [] /\
  omap train_args (trace_of (Demo.env (at_call 16)) (main default_args) 0%nat) = [].
Proof.
  assert (H1 : omap trainer_built (trace_of (Demo.env never) (main default_args) 0%nat)
               <> []) by discriminate.
  assert (H2 : omap trainer_built
                 (trace_of (Demo.env (at_call 16)) (main default_args) 0%nat) = [])
    by reflexivity.
  split; [exact H1 | ].
  split.
  - exact (proj1 (proj1 (training_once_before_evaluation_and_pickling
                           (Demo.env never) default_args 0%nat)) H1).
  - split; [exact H2 | ].
    exact (proj1 (proj2 (proj1 (training_once_before_evaluation_and_pickling
                                  (Demo.env (at_call 16)) default_args 0%nat))) H2).
Defined.
